(** * The prompt relay: server routes and serverless handler

    A shallow embedding of the Express application ([src/unnamed/part_000]:
    the routes [POST /translate] and [POST /ai/:task]) and of the serverless
    function [src/api/translate.js], followed by the properties of the
    relay contract that hold of them.

    - JavaScript values are the values [JSON.parse] produces, plus
      [undefined]; objects are finite maps from property names to values,
      numbers are doubles, each given by a rational it is nearest to.
    - A handler is a program that awaits [fetch] calls; exceptions are
      completions, caught by the handler's [try]/[catch].
    - The response is what the handler hands to [res.status(..).json(..)]:
      a status code and a JSON value.  Response headers (the CORS headers),
      console logging and the size limit of the body parser are left out. *)

From stdpp Require Import gmap strings list pretty.
From Stdlib Require Import ZArith QArith Qabs Ascii String.

Set Warnings "-register-all".
Local Open Scope string_scope.
Local Close Scope Q_scope.

(** ** JavaScript values *)

Module JS.

(** *** Numbers

    A number is a double.  [Num q] is the double nearest to the rational
    [q] (ties to the even mantissa), which is what [JSON.parse] makes of
    a literal of value [q]: zero when [q] is at most 2^-1075 in
    magnitude, an infinity when it rounds beyond the largest double. *)

(** [b^e] as a rational, for any integer [e]. *)
Definition Qpow (b : Z) (e : Z) : Q :=
  if (0 <=? e)%Z then inject_Z (b ^ e) else Qinv (inject_Z (b ^ (- e))).

(** The integer nearest to [q], of two equally near the even one. *)
Definition round_half_even (q : Q) : Z :=
  let n := Qnum q in
  let d := Zpos (Qden q) in
  let f := (n / d)%Z in
  let r2 := (2 * (n mod d))%Z in
  if (r2 <? d)%Z then f
  else if (d <? r2)%Z then (f + 1)%Z
  else if Z.even f then f else (f + 1)%Z.

(** The integer part of the binary logarithm of [q] > 0. *)
Definition Qlog2 (q : Q) : Z :=
  let l := (Z.log2 (Qnum q) - Z.log2 (Zpos (Qden q)))%Z in
  if Qle_bool (Qpow 2 l) q then l else (l - 1)%Z.

(** The double nearest to [q] > 0, as mantissa [m] and exponent [e]: its
    value is [m * 2^e], with 2^52 <= m < 2^53, or with e = -1074 and
    m < 2^52 for a subnormal.  [None] is Infinity. *)
Definition binary64 (q : Q) : option (Z * Z) :=
  let e := Z.max (Qlog2 q - 52) (-1074) in
  let m := round_half_even (Qdiv q (Qpow 2 e)) in
  let '(m, e) := if (m =? 2 ^ 53)%Z then ((2 ^ 52)%Z, (e + 1)%Z) else (m, e) in
  if (971 <? e)%Z then None else Some (m, e).

Definition double_value (me : Z * Z) : Q :=
  Qmult (inject_Z (fst me)) (Qpow 2 (snd me)).

Definition same_double (a b : option (Z * Z)) : bool :=
  match a, b with
  | Some (m, e), Some (m', e') => (m =? m')%Z && (e =? e')%Z
  | _, _ => false
  end.

(** The [n] with 10^(n-1) <= x < 10^n, for x > 0, from an estimate. *)
Fixpoint adjust10 (fuel : nat) (x : Q) (n : Z) : Z :=
  match fuel with
  | O => n
  | S fuel =>
      if Qle_bool (Qpow 10 n) x then adjust10 fuel x (n + 1)%Z
      else if Qle_bool (Qpow 10 (n - 1)) x then n
      else adjust10 fuel x (n - 1)%Z
  end.

Definition digits10 (x : Q) : Z :=
  adjust10 8 x ((Qlog2 x * 30103) / 100000 + 1)%Z.

(** A decimal [s * 10^(n-k)] of [k] digits that reads back as the double
    [d], whose value is [x]: of two the nearer to [x], of two equally
    near the even one. *)
Definition candidate (d : option (Z * Z)) (x : Q) (n k : Z) : option Z :=
  let scale := Qpow 10 (n - k) in
  let scaled := Qdiv x scale in
  let lo := (Qnum scaled / Zpos (Qden scaled))%Z in
  let hi := (lo + 1)%Z in
  let reads_back s := same_double (binary64 (Qmult (inject_Z s) scale)) d in
  match reads_back lo, reads_back hi with
  | true, true => Some (round_half_even scaled)
  | true, false => Some lo
  | false, true => Some hi
  | false, false => None
  end.

(** The shortest such decimal: 17 digits always read back. *)
Fixpoint shortest (fuel : nat) (d : option (Z * Z)) (x : Q) (n k : Z) : Z * Z :=
  match fuel with
  | O => (round_half_even (Qdiv x (Qpow 10 (n - k))), k)
  | S fuel =>
      match candidate d x n k with
      | Some s => (s, k)
      | None => shortest fuel d x n (k + 1)%Z
      end
  end.

Fixpoint strip_zeros (fuel : nat) (s : Z) : Z :=
  match fuel with
  | O => s
  | S fuel => if (s mod 10 =? 0)%Z then strip_zeros fuel (s / 10)%Z else s
  end.

Definition zeros (n : Z) : string := String.concat "" (replicate (Z.to_nat n) "0").

(** [Number::toString] of the double nearest to [x] > 0: its shortest
    digits, laid out plainly when 10^-7 < x < 10^21 and with an exponent
    otherwise. *)
Definition positive_to_string (x : Q) : string :=
  match binary64 x with
  | None => "Infinity"
  | Some me =>
      let v := double_value me in
      let n0 := digits10 v in
      let '(s, k0) := shortest 17 (Some me) v n0 1 in
      let n := (n0 - k0 + Z.of_nat (String.length (pretty s)))%Z in
      let ds := pretty (strip_zeros 20 s) in
      let k := Z.of_nat (String.length ds) in
      if (k <=? n)%Z && (n <=? 21)%Z then ds +:+ zeros (n - k)
      else if (0 <? n)%Z && (n <=? 21)%Z then
        String.substring 0 (Z.to_nat n) ds +:+ "."
        +:+ String.substring (Z.to_nat n) (Z.to_nat (k - n)) ds
      else if (-6 <? n)%Z && (n <=? 0)%Z then "0." +:+ zeros (- n) +:+ ds
      else
        let e := (n - 1)%Z in
        let es := (if (0 <=? e)%Z then "+" else "-") +:+ pretty (Z.abs e) in
        if (k =? 1)%Z then ds +:+ "e" +:+ es
        else String.substring 0 1 ds +:+ "."
             +:+ String.substring 1 (Z.to_nat (k - 1)) ds +:+ "e" +:+ es
  end.

(** Whether the double nearest to [q] is zero. *)
Definition rounds_to_zero (q : Q) : bool := Qle_bool (Qabs q) (Qpow 2 (-1075)).

Definition Number_toString (q : Q) : string :=
  if rounds_to_zero q then "0"
  else if Qle_bool 0 q then positive_to_string q
  else "-" +:+ positive_to_string (Qopp q).

(** An integer of magnitude at most 2^53 is a double, and is printed by
    its decimal digits. *)
Definition safe_integer (q : Q) : option Z :=
  let r := Qred q in
  if (Qden r =? 1)%positive && (Z.abs (Qnum r) <=? 2 ^ 53)%Z then Some (Qnum r)
  else None.

Definition number_text (q : Q) : string :=
  match safe_integer q with
  | Some z => pretty z
  | None => Number_toString q
  end.

(** *** Values *)

Inductive value : Type :=
| Undefined
| Null
| Bool (b : bool)
| Num (q : Q)
| Str (s : string)
| Arr (l : list value)
| Obj (m : gmap string value).

(** [!v] is [negb (truthy v)]. *)
Definition truthy (v : value) : bool :=
  match v with
  | Undefined | Null => false
  | Bool b => b
  | Num q => negb (rounds_to_zero q)
  | Str s => negb (String.eqb s "")
  | Arr _ | Obj _ => true
  end.

Definition typeof (v : value) : string :=
  match v with
  | Undefined => "undefined"
  | Null | Arr _ | Obj _ => "object"
  | Bool _ => "boolean"
  | Num _ => "number"
  | Str _ => "string"
  end.

Definition nullish (v : value) : bool :=
  match v with
  | Undefined | Null => true
  | _ => false
  end.

(** [a || b] *)
Definition or_else (a b : value) : value := if truthy a then a else b.

(** [v?.name] for a [name] that is not an index, [length] or an
    inherited property (the handlers read [prompt], [content],
    [language], [choices], [message] and [error]): an own property of an
    object, [undefined] otherwise.  The plain read [v.name] throws on
    [null] and [undefined] before it gets here (see [read] below). *)
Definition member (v : value) (name : string) : value :=
  match v with
  | Obj m => default Undefined (m !! name)
  | _ => Undefined
  end.

(** [v?.[i]]: an element of an array, a character of a string, the
    property named by the digits of [i] of an object. *)
Definition element (v : value) (i : nat) : value :=
  match v with
  | Arr l => default Undefined (l !! i)
  | Str s => match String.get i s with
             | Some c => Str (String c "")
             | None => Undefined
             end
  | Obj m => default Undefined (m !! pretty i)
  | _ => Undefined
  end.

(** The string a template literal [`${v}`] splices in; [None] when the
    conversion throws a [TypeError].  An array is printed by [join]: its
    elements, [null] and [undefined] as nothing, with commas between.  An
    object is printed by the inherited [toString] as [[object Object]],
    unless it has a property of its own named [toString]: a parsed value
    is not callable, [valueOf] does not give a primitive either, and the
    conversion throws. *)
Fixpoint ToString (v : value) : option string :=
  match v with
  | Undefined => Some "undefined"
  | Null => Some "null"
  | Bool true => Some "true"
  | Bool false => Some "false"
  | Num q => Some (number_text q)
  | Str s => Some s
  | Arr l =>
      (fix join (l : list value) : option string :=
         match l with
         | [] => Some ""
         | x :: r =>
             match (if nullish x then Some "" else ToString x) with
             | None => None
             | Some sx =>
                 match r with
                 | [] => Some sx
                 | _ => match join r with
                        | None => None
                        | Some sr => Some (sx +:+ "," +:+ sr)
                        end
                 end
             end
         end) l
  | Obj m => if bool_decide (is_Some (m !! "toString")) then None
             else Some "[object Object]"
  end.

(** A template literal: its literal texts and its substitutions [${v}],
    converted and joined from left to right.  [inr v] when the conversion
    of the substitution [v] throws. *)
Inductive piece : Type :=
| Text (s : string)
| Subst (v : value).

Fixpoint template_literal (pieces : list piece) : string + value :=
  match pieces with
  | [] => inl ""
  | Text s :: rest =>
      match template_literal rest with
      | inl t => inl (s +:+ t)
      | inr v => inr v
      end
  | Subst v :: rest =>
      match ToString v with
      | None => inr v
      | Some sv =>
          match template_literal rest with
          | inl t => inl (sv +:+ t)
          | inr v' => inr v'
          end
      end
  end.

(** What throws a [TypeError]: a property read whose base is [null] or
    [undefined], and the conversion of an object to a string. *)
Inductive access : Type :=
| Destructure (base : value) (name : string)
| Read (base : value) (name : string)
| Convert (v : value).

End JS.

Import JS.

(** ** Outbound calls and the handler monad *)

Record FetchInit : Type := mkInit {
  method_of : string;
  headers : list (string * string);
  payload : value          (* the value given to JSON.stringify *)
}.

(** What [response.json()] gives: the parsed body, or a rejection. *)
Inductive Parsed : Type :=
| Json (v : value)
| Unparsable (message : string).

Record Response : Type := mkResponse {
  status : N;
  text : Parsed
}.

(** [response.ok] *)
Definition ok (r : Response) : bool :=
  (200 <=? status r)%N && (status r <=? 299)%N.

(** The promise [fetch] returns settles: rejected on a transport failure,
    resolved with the response otherwise. *)
Inductive FetchResult : Type :=
| Rejected (message : string)
| Resolved (r : Response).

Inductive Async (A : Type) : Type :=
| Return (a : A)
| Await (url : string) (init : FetchInit) (k : FetchResult → Async A).
Arguments Return {A} a.
Arguments Await {A} url init k.

Inductive Completion (A : Type) : Type :=
| Normal (a : A)
| Throw (message : string).
Arguments Normal {A} a.
Arguments Throw {A} message.

(** The body of a [try] block. *)
Definition Prog (A : Type) : Type := Async (Completion A).

Fixpoint bind {A B : Type} (m : Prog A) (f : A → Prog B) : Prog B :=
  match m with
  | Return (Normal a) => f a
  | Return (Throw e) => Return (Throw e)
  | Await url init k => Await url init (fun r => bind (k r) f)
  end.

Definition ret {A : Type} (a : A) : Prog A := Return (Normal a).
Definition throw {A : Type} (message : string) : Prog A := Return (Throw message).

#[global] Instance Prog_ret : MRet Prog := @ret.
#[global] Instance Prog_bind : MBind Prog := fun A B f m => bind m f.

(** [try { body } catch (error) { handler(error.message) }] *)
Fixpoint try_catch {A : Type} (body : Prog A) (handler : string → Async A) : Async A :=
  match body with
  | Return (Normal a) => Return a
  | Return (Throw e) => handler e
  | Await url init k => Await url init (fun r => try_catch (k r) handler)
  end.

(** [await fetch(url, init)] *)
Definition fetch (url : string) (init : FetchInit) : Prog Response :=
  Await url init (fun r =>
    match r with
    | Rejected e => throw e
    | Resolved resp => ret resp
    end).

(** [await response.json()] *)
Definition json (r : Response) : Prog value :=
  match text r with
  | Json v => ret v
  | Unparsable e => throw e
  end.

(** What a [fetch] answers to every call; running a handler against it
    gives the calls made, in order, and the handler's result.  Each
    deployment has a [fetch] of its own: the server imports [node-fetch],
    the serverless function calls the [fetch] of its runtime.  The two
    word their rejections and their parse failures differently, so a
    comparison of the two deployments runs each against its own [Net]
    (see [same_upstream]); where a statement runs both handlers against
    one [Net], it speaks of each handler by itself. *)
Definition Net : Type := string → FetchInit → FetchResult.

(** Two answers to one call that differ in the wording of a failure at
    most: both are rejections, or both are responses of the same status
    whose bodies parse to the same value or both fail to parse. *)
Definition same_answer (a b : FetchResult) : Prop :=
  match a, b with
  | Rejected _, Rejected _ => True
  | Resolved ra, Resolved rb =>
      status ra = status rb
      ∧ match text ra, text rb with
        | Json va, Json vb => va = vb
        | Unparsable _, Unparsable _ => True
        | _, _ => False
        end
  | _, _ => False
  end.

(** The two [fetch]es reach the same upstream. *)
Definition same_upstream (node_fetch global_fetch : Net) : Prop :=
  ∀ url init, same_answer (node_fetch url init) (global_fetch url init).

Fixpoint run {A : Type} (net : Net) (p : Async A) : list (string * FetchInit) * A :=
  match p with
  | Return a => ([], a)
  | Await url init k =>
      let '(calls, a) := run net (k (net url init)) in
      ((url, init) :: calls, a)
  end.

(** ** Requests, responses and the process *)

(** The fields of [req] the handlers read: [req.method], [req.protocol],
    [req.get('host')], [req.params.task] and [req.body]. *)
Record Request : Type := mkRequest {
  req_method : string;
  req_protocol : string;
  req_host : option string;
  req_task : string;
  req_body : value
}.

Record HttpResponse : Type := mkHttpResponse {
  status_code : N;
  body : option value
}.

(** [res.status(code).json(v)], [res.json(v)] and [res.status(code).end()] *)
Definition res_status_json (code : N) (v : value) : HttpResponse :=
  {| status_code := code; body := Some v |}.
Definition res_json (v : value) : HttpResponse := res_status_json 200%N v.
Definition res_status_end (code : N) : HttpResponse :=
  {| status_code := code; body := None |}.

(** [process.env] as the handlers read it, and the message the engine
    gives the [TypeError] of a property read on [null] or [undefined]. *)
Record Process : Type := mkProcess {
  GROQ_API_KEY : option string;
  GROQ_MODEL : option string;
  TypeError_message : access → string
}.

(** [!!process.env.X]: set and not the empty string. *)
Definition configured (x : option string) : bool :=
  match x with
  | Some s => negb (String.eqb s "")
  | None => false
  end.

(** [`${process.env.X}`] *)
Definition env_text (x : option string) : string := default "undefined" x.

(** [process.env.X || d] *)
Definition env_or (x : option string) (d : string) : string :=
  if configured x then env_text x else d.

Definition destructure (p : Process) (base : value) (name : string) : Prog value :=
  if nullish base then throw (TypeError_message p (Destructure base name))
  else ret (member base name).

Definition read (p : Process) (base : value) (name : string) : Prog value :=
  if nullish base then throw (TypeError_message p (Read base name))
  else ret (member base name).

Definition read_index (p : Process) (base : value) (i : nat) : Prog value :=
  if nullish base then throw (TypeError_message p (Read base (pretty i)))
  else ret (element base i).

(** [{ error: v }] *)
Definition error_body (v : value) : value := Obj {[ "error" := v ]}.

Definition nl : string := String "010"%char "".
Definition dquote : string := String "034"%char "".

(** The call of the completion API, the same text in both files
    (part_000 lines 51-63, api/translate.js lines 29-41).  The numeric
    fields [max_tokens] and [temperature] of the body, parsed from the
    environment as floating point numbers, are left out. *)
Definition GROQ_URL : string := "https://api.groq.com/openai/v1/chat/completions".

Definition chat_completion (p : Process) (prompt : value) : FetchInit :=
  {| method_of := "POST";
     headers := [("Content-Type", "application/json");
                 ("Authorization", "Bearer " +:+ env_text (GROQ_API_KEY p))];
     payload := Obj (<[ "model" := Str (env_or (GROQ_MODEL p) "llama-3.1-8b-instant") ]>
                     {[ "messages" :=
                          Arr [Obj (<[ "role" := Str "user" ]> {[ "content" := prompt ]})] ]}) |}.

(** The report of the health endpoints, the same object literal in both
    files (part_000 lines 22-26, api/health.js lines 6-10).  [now] is the
    text [new Date().toISOString()] gives when the request is handled. *)
Definition health_report (p : Process) (now : string) : value :=
  Obj (<[ "status" := Str "ok" ]>
       (<[ "timestamp" := Str now ]>
        {[ "groqConfigured" := Bool (configured (GROQ_API_KEY p)) ]})).

(** ** The Express application (src/unnamed/part_000) *)

Module Server.

(** [app.get('/health', ...)] *)
Definition app_get_health (p : Process) (now : string) (req : Request) : HttpResponse :=
  res_json (health_report p now).

(** [app.post("/translate", ...)] *)
Definition app_post_translate (p : Process) (req : Request) : Async HttpResponse :=
  try_catch
    (prompt ← destructure p (req_body req) "prompt";
     if negb (truthy prompt) || negb (String.eqb (typeof prompt) "string") then
       ret (res_status_json 400%N
              (error_body (Str "Invalid request: prompt is required and must be a string")))
     else if negb (configured (GROQ_API_KEY p)) then
       ret (res_status_json 500%N
              (error_body (Str "Server configuration error: GROQ_API_KEY not found in environment variables")))
     else
       response ← fetch GROQ_URL (chat_completion p prompt);
       if negb (ok response) then
         errorData ← json response;
         error ← read p errorData "error";
         let message := if nullish error then Undefined else member error "message" in
         ret (res_status_json (status response)
                (Obj (<[ "error" := or_else message (Str "API request failed") ]>
                      {[ "details" := errorData ]})))
       else
         data ← json response;
         choices ← read p data "choices";
         if negb (truthy choices) then
           ret (res_status_json 500%N (error_body (Str "Invalid response from AI service")))
         else
           first ← read_index p choices 0;
           if negb (truthy first) then
             ret (res_status_json 500%N (error_body (Str "Invalid response from AI service")))
           else
             message ← read p first "message";
             if negb (truthy message) then
               ret (res_status_json 500%N (error_body (Str "Invalid response from AI service")))
             else
               ret (res_json data))
    (fun message =>
       Return (res_status_json 500%N (error_body (Str ("Internal server error: " +:+ message))))).

(** The outcome of the [switch (task)] of [app.post("/ai/:task", ...)]:
    a prompt, the response of an early [return], or the [TypeError] a
    template literal throws. *)
Inductive Resolution : Type :=
| Prompt (prompt : string)
| Refused (r : HttpResponse)
| Raised (a : access).

(** [prompt = `...`] *)
Definition prompt_of (pieces : list piece) : Resolution :=
  match template_literal pieces with
  | inl prompt => Prompt prompt
  | inr v => Raised (Convert v)
  end.

Definition switch_task (task : string) (content language : value) : Resolution :=
  if String.eqb task "summary" then
    prompt_of [Text "Please provide a concise 2-3 sentence summary of the following text:";
               Text nl; Text nl; Subst content]
  else if String.eqb task "grammar" then
    prompt_of [Text "Please check the following text for grammar errors and provide suggestions for improvement:";
               Text nl; Text nl; Subst content]
  else if String.eqb task "tags" then
    prompt_of [Text "Based on the following text, suggest 5 relevant tags (single words or short phrases). Return only the tags separated by commas:";
               Text nl; Text nl; Subst content]
  else if String.eqb task "translate" then
    if negb (truthy language) then
      Refused (res_status_json 400%N (error_body (Str "Language is required for translation")))
    else
      prompt_of [Text "Translate the following text to "; Subst language;
                 Text ". Maintain the original meaning and tone. Only return the translated text without any additional comments:";
                 Text nl; Text nl; Subst content]
  else if String.eqb task "terms" then
    prompt_of [Text "Identify 8-10 key technical terms, concepts, or important words from the following text. Return only the terms separated by commas:";
               Text nl; Text nl; Subst content]
  else if String.eqb task "define" then
    prompt_of [Text "Provide a brief, clear definition (1-2 sentences maximum) for the term: ";
               Text dquote; Subst content; Text dquote;
               Text ". Focus on the most relevant meaning in context."]
  else if String.eqb task "detailed-define" then
    prompt_of [Text "Provide a comprehensive but concise explanation of the term: ";
               Text dquote; Subst content; Text dquote;
               Text ". Include its definition, context, and why it's important. Keep it informative but not too lengthy (3-4 sentences maximum)."]
  else
    Refused (res_status_json 400%N
               (error_body (Str "Invalid task. Supported tasks: summary, grammar, tags, translate, terms, define, detailed-define"))).

(** [`${req.protocol}://${req.get('host')}/translate`] *)
Definition translate_url (req : Request) : string :=
  req_protocol req +:+ "://" +:+ env_text (req_host req) +:+ "/translate".

Definition translate_call (prompt : string) : FetchInit :=
  {| method_of := "POST";
     headers := [("Content-Type", "application/json")];
     payload := Obj {[ "prompt" := Str prompt ]} |}.

(** [app.post("/ai/:task", ...)] *)
Definition app_post_ai_task (p : Process) (req : Request) : Async HttpResponse :=
  try_catch
    (let task := req_task req in
     content ← destructure p (req_body req) "content";
     language ← destructure p (req_body req) "language";
     if negb (truthy content) then
       ret (res_status_json 400%N (error_body (Str "Content is required")))
     else
       match switch_task task content language with
       | Refused r => ret r
       | Raised a => throw (TypeError_message p a)
       | Prompt prompt =>
           response ← fetch (translate_url req) (translate_call prompt);
           data ← json response;
           ret (res_json data)
       end)
    (fun message =>
       Return (res_status_json 500%N (error_body (Str ("Internal server error: " +:+ message))))).

End Server.

(** ** The serverless function (src/api/translate.js) *)

Module Api.

Definition handler (p : Process) (req : Request) : Async HttpResponse :=
  if String.eqb (req_method req) "OPTIONS" then
    Return (res_status_end 200%N)
  else if negb (String.eqb (req_method req) "POST") then
    Return (res_status_json 405%N (error_body (Str "Method not allowed")))
  else
    try_catch
      (prompt ← destructure p (req_body req) "prompt";
       if negb (truthy prompt) || negb (String.eqb (typeof prompt) "string") then
         ret (res_status_json 400%N
                (error_body (Str "Invalid request: prompt is required and must be a string")))
       else if negb (configured (GROQ_API_KEY p)) then
         ret (res_status_json 500%N
                (error_body (Str "Server configuration error: GROQ_API_KEY not found")))
       else
         response ← fetch GROQ_URL (chat_completion p prompt);
         if negb (ok response) then
           errorData ← json response;
           error ← read p errorData "error";
           let message := if nullish error then Undefined else member error "message" in
           ret (res_status_json (status response)
                  (error_body (or_else message (Str "API request failed"))))
         else
           data ← json response;
           choices ← read p data "choices";
           if negb (truthy choices) then
             ret (res_status_json 500%N (error_body (Str "Invalid response from AI service")))
           else
             first ← read_index p choices 0;
             if negb (truthy first) then
               ret (res_status_json 500%N (error_body (Str "Invalid response from AI service")))
             else
               message ← read p first "message";
               if negb (truthy message) then
                 ret (res_status_json 500%N (error_body (Str "Invalid response from AI service")))
               else
                 ret (res_json data))
      (fun message =>
         Return (res_status_json 500%N (error_body (Str ("Internal server error: " +:+ message))))).

End Api.

(** ** The serverless health function (src/api/health.js) *)

Module ApiHealth.

Definition handler (p : Process) (now : string) (req : Request) : HttpResponse :=
  if negb (String.eqb (req_method req) "GET") then
    res_status_json 405%N (error_body (Str "Method not allowed"))
  else
    res_json (health_report p now).

End ApiHealth.

(** ** The server reached through its own address *)

(** What [fetch] resolves to when the answer is the response [r] of one
    of the routes above. *)
Definition served (r : HttpResponse) : FetchResult :=
  Resolved {| status := status_code r;
              text := match body r with
                      | Some v => Json v
                      | None => Unparsable "Unexpected end of JSON input"
                      end |}.

(** The request [app_post_translate] sees when a JSON document is posted
    to [/translate]: the body parser hands it over as [req.body]. *)
Definition translate_request (req : Request) (document : value) : Request :=
  {| req_method := "POST";
     req_protocol := req_protocol req;
     req_host := req_host req;
     req_task := "";
     req_body := document |}.

(** The network as the handler of [req] sees it when the server is
    reachable under the protocol and host of [req]: a call of its own
    [/translate] is answered by [Server.app_post_translate], every other
    call by [net]. *)
Definition loopback (p : Process) (net : Net) (req : Request) : Net :=
  fun url init =>
    if String.eqb url (Server.translate_url req) then
      served (snd (run net (Server.app_post_translate p (translate_request req (payload init)))))
    else net url init.

(** ** The contract, in the words of the specification *)

Module Spec.

Inductive Task : Type :=
| summary | grammar | tags | translate | terms | define | detailed_define.

Definition tasks : list Task :=
  [summary; grammar; tags; translate; terms; define; detailed_define].

#[global] Instance Task_eq_dec : EqDecision Task.
Proof. solve_decision. Defined.

Definition task_name (t : Task) : string :=
  match t with
  | summary => "summary"
  | grammar => "grammar"
  | tags => "tags"
  | translate => "translate"
  | terms => "terms"
  | define => "define"
  | detailed_define => "detailed-define"
  end.

(** A template is literal text with the two placeholders [{content}]
    and [{language}]. *)
Inductive Piece : Type :=
| Lit (s : string)
| Content
| Language.

(** The template table of section 4.1; [nl] is the escaped line
    feed and [dquote] the escaped double quote of the table. *)
Definition template (t : Task) : list Piece :=
  match t with
  | summary =>
      [Lit "Please provide a concise 2-3 sentence summary of the following text:";
       Lit nl; Lit nl; Content]
  | grammar =>
      [Lit "Please check the following text for grammar errors and provide suggestions for improvement:";
       Lit nl; Lit nl; Content]
  | tags =>
      [Lit "Based on the following text, suggest 5 relevant tags (single words or short phrases). Return only the tags separated by commas:";
       Lit nl; Lit nl; Content]
  | translate =>
      [Lit "Translate the following text to "; Language;
       Lit ". Maintain the original meaning and tone. Only return the translated text without any additional comments:";
       Lit nl; Lit nl; Content]
  | terms =>
      [Lit "Identify 8-10 key technical terms, concepts, or important words from the following text. Return only the terms separated by commas:";
       Lit nl; Lit nl; Content]
  | define =>
      [Lit "Provide a brief, clear definition (1-2 sentences maximum) for the term: ";
       Lit dquote; Content; Lit dquote;
       Lit ". Focus on the most relevant meaning in context."]
  | detailed_define =>
      [Lit "Provide a comprehensive but concise explanation of the term: ";
       Lit dquote; Content; Lit dquote;
       Lit ". Include its definition, context, and why it's important. Keep it informative but not too lengthy (3-4 sentences maximum)."]
  end.

(** Both placeholders are replaced in one pass, by the strings as they
    are. *)
Fixpoint substitute (tpl : list Piece) (content language : string) : string :=
  match tpl with
  | [] => ""
  | Lit s :: r => s +:+ substitute r content language
  | Content :: r => content +:+ substitute r content language
  | Language :: r => language +:+ substitute r content language
  end.

(** The upstream body has a non-empty [choices[0].message]. *)
Definition has_choice_message (data : value) : bool :=
  truthy (member (element (member data "choices") 0) "message").

(** Whether [task] names one of the tasks. *)
Definition known_task (task : string) : bool :=
  existsb (fun t => String.eqb task (task_name t)) tasks.

(** The failures of section 7 the handlers answer with.  The
    specification fixes their status codes and that the body is a JSON
    object with an [error] field; [InvalidTask] lists the valid set. *)
Definition failure (code : N) (message : string) : HttpResponse :=
  {| status_code := code; body := Some (Obj {[ "error" := Str message ]}) |}.

Definition InvalidTask : HttpResponse :=
  failure 400%N ("Invalid task. Supported tasks: "
               +:+ String.concat ", " (map task_name tasks)).

Definition MalformedUpstreamResponse : HttpResponse :=
  failure 500%N "Invalid response from AI service".

Definition has_error_field (r : HttpResponse) : Prop :=
  ∃ m e, body r = Some (Obj m) ∧ m !! "error" = Some e.

End Spec.

(** ** A Node process and some stubbed networks *)

Module Sample.

(** The messages V8 gives.  The base of a read that throws is [null] or
    [undefined]. *)
Definition base_text (base : value) : string :=
  match base with
  | Null => "null"
  | _ => "undefined"
  end.

Definition v8_message (a : access) : string :=
  match a with
  | Destructure base name =>
      "Cannot destructure property '" +:+ name +:+ "' of 'req.body' as it is "
      +:+ base_text base +:+ "."
  | Read base name =>
      "Cannot read properties of " +:+ base_text base +:+ " (reading '" +:+ name +:+ "')"
  | Convert _ => "Cannot convert object to primitive value"
  end.

Definition with_key : Process :=
  {| GROQ_API_KEY := Some "gsk_test"; GROQ_MODEL := None; TypeError_message := v8_message |}.

Definition without_key : Process :=
  {| GROQ_API_KEY := None; GROQ_MODEL := None; TypeError_message := v8_message |}.

(** An upstream that answers every call with status [code] and the
    JSON document [data]. *)
Definition stub (code : N) (data : value) : Net :=
  fun _ _ => Resolved {| status := code; text := Json data |}.

(** An upstream that cannot be reached, as each [fetch] words it. *)
Definition node_fetch_down : Net :=
  fun url _ => Rejected ("request to " +:+ url +:+ " failed, reason: connect ECONNREFUSED").
Definition global_fetch_down : Net := fun _ _ => Rejected "fetch failed".

(** [{choices:[{message:{content:"X"}}]}] *)
Definition completion_X : value :=
  Obj {[ "choices" := Arr [Obj {[ "message" := Obj {[ "content" := Str "X" ]} ]}] ]}.

Definition post (task : string) (document : value) : Request :=
  {| req_method := "POST"; req_protocol := "http"; req_host := Some "localhost:3000";
     req_task := task; req_body := document |}.

(** The stubbed upstream of section 8, and a few requests. *)
Definition upstream : Net := stub 200 completion_X.

Definition special : string := "<b>5 > 3</b> & {language} \n 'x'".

Definition say_hi : Request := post "" (Obj {[ "prompt" := Str "hi" ]}).
Definition empty_post : Request := post "" (Obj ∅).
Definition empty_prompt : Request := post "" (Obj {[ "prompt" := Str "" ]}).
Definition summarise_hi : Request := post "summary" (Obj {[ "content" := Str "hi" ]}).
Definition summarise_5 : Request := post "summary" (Obj {[ "content" := Num 5%Q ]}).
Definition summarise_nothing : Request := post "summary" (Obj {[ "content" := Str "" ]}).
Definition bogus_empty : Request := post "bogus" (Obj ∅).
Definition bogus_hello : Request :=
  post "bogus" (Obj (<[ "content" := Str "hello" ]> {[ "language" := Num 7%Q ]})).
Definition translate_special : Request :=
  post "translate" (Obj (<[ "content" := Str special ]> {[ "language" := Str "French" ]})).

End Sample.

(** ** The branches of the [/translate] handlers *)

(** The test both handlers apply to [prompt] before anything else. *)
Definition accepted_prompt (document : value) : bool :=
  truthy (member document "prompt")
  && String.eqb (typeof (member document "prompt")) "string".





(** ** Proof steps *)

Ltac js_unfold :=
  unfold Server.app_post_translate, Server.app_post_ai_task, Api.handler,
    destructure, read, read_index.

Ltac js_step :=
  cbn [mbind Prog_bind bind try_catch ret throw mret Prog_ret fetch json run
       snd fst negb orb andb text status status_code body res_status_json res_json
       truthy nullish typeof String.eqb Ascii.eqb Bool.eqb].

Ltac js_post Hm :=
  js_unfold; rewrite ?Hm;
  change (String.eqb "POST" "OPTIONS") with false;
  change (String.eqb "POST" "POST") with true;
  cbv iota; js_step.

(** ** Values and strings *)

Lemma truthy_not_nullish v : truthy v = true → nullish v = false.
Proof. by destruct v. Qed.

Lemma member_truthy_inv v name : truthy (member v name) = true → ∃ m, v = Obj m.
Proof. destruct v; try discriminate. eauto. Qed.

Lemma member_truthy_not_nullish v name : truthy (member v name) = true → nullish v = false.
Proof. intros [m ->]%member_truthy_inv. reflexivity. Qed.

Lemma member_str_inv v name s : member v name = Str s → nullish v = false.
Proof. destruct v; simpl; congruence. Qed.

Lemma element_truthy_base c i :
  truthy (member (element c i) "message") = true → truthy c = true.
Proof.
  intros H. apply member_truthy_inv in H as [m Hm].
  destruct c; simpl in *; try discriminate; try reflexivity.
  destruct (String.get i s); discriminate.
Qed.

Lemma string_nonempty s : s ≠ "" → String.eqb s "" = false.
Proof. intros H. by apply String.eqb_neq. Qed.

Lemma append_empty_r s : s +:+ "" = s.
Proof.
  induction s as [|c s IH]; [reflexivity|].
  change (String c s +:+ "") with (String c (s +:+ "")). by rewrite IH.
Qed.

(** An integer of magnitude at most 2^53 is printed by its digits, and
    is truthy unless it is zero. *)
Lemma Qred_integer (z : Z) :
  Qnum (Qred (inject_Z z)) = z ∧ Qden (Qred (inject_Z z)) = 1%positive.
Proof.
  pose proof (Qred_correct (inject_Z z)) as Heq.
  pose proof (gcd_Qred (inject_Z z)) as Hgcd.
  destruct (Qred (inject_Z z)) as [n d]. unfold Qeq in Heq. cbn in Heq, Hgcd |- *.
  rewrite Z.mul_1_r in Heq. subst n.
  rewrite Z.gcd_comm, (Z.mul_comm z), Z.gcd_mul_diag_l in Hgcd by lia.
  assert (d = 1%positive) as -> by lia. split; [lia|reflexivity].
Qed.

Lemma safe_integer_inject (z : Z) :
  (Z.abs z ≤ 2 ^ 53)%Z → safe_integer (inject_Z z) = Some z.
Proof.
  intros Hz. unfold safe_integer.
  destruct (Qred_integer z) as [-> ->].
  replace (Z.abs z <=? 2 ^ 53)%Z with true by (symmetry; by apply Z.leb_le).
  reflexivity.
Qed.

Lemma number_text_integer (z : Z) :
  (Z.abs z ≤ 2 ^ 53)%Z → number_text (inject_Z z) = pretty z.
Proof. intros Hz. unfold number_text. by rewrite safe_integer_inject. Qed.

Lemma tiny_below_one : Qlt (Qpow 2 (-1075)) 1.
Proof. vm_compute. reflexivity. Qed.

Lemma integer_truthy (z : Z) : z ≠ 0%Z → truthy (Num (inject_Z z)) = true.
Proof.
  intros Hz. cbn [truthy]. apply negb_true_iff. unfold rounds_to_zero.
  destruct (Qle_bool _ _) eqn:H; [|reflexivity].
  apply Qle_bool_iff in H.
  assert (H1 : Qle 1 (Qabs (inject_Z z))).
  { change (Qabs (inject_Z z)) with (inject_Z (Z.abs z)).
    change 1%Q with (inject_Z 1). rewrite <- Zle_Qle. lia. }
  exfalso. apply (Qlt_irrefl 1).
  eapply Qle_lt_trans; [exact H1|]. eapply Qle_lt_trans; [exact H|]. exact tiny_below_one.
Qed.

(** Some prints: a fraction, 10^21, 2^64, 2^53 + 1 (which is not a
    double), 10^-7, a literal beyond the largest double. *)
Example number_texts :
  map number_text [5%Q; (-12)%Q; 0%Q; (1 # 2)%Q; inject_Z (10 ^ 21); inject_Z (2 ^ 64);
                   inject_Z (2 ^ 53 + 1); (1 # 10000000)%Q; (3 # 8)%Q; inject_Z (10 ^ 400);
                   (-1234567 # 1000)%Q; (1 # 3)%Q]
  = ["5"; "-12"; "0"; "0.5"; "1e+21"; "18446744073709552000";
     "9007199254740992"; "1e-7"; "0.375"; "Infinity"; "-1234.567"; "0.3333333333333333"].
Proof. vm_compute. reflexivity. Qed.

(** On integers of magnitude at most 2^53 the digits are what
    [Number_toString] gives. *)
Example safe_integers_agree :
  forallb (λ z, String.eqb (Number_toString (inject_Z z)) (pretty z))
    [0; 1; -1; 5; 10; 100; 12345; -999999; 2 ^ 53; - 2 ^ 53; 2 ^ 53 - 1; 9007199254740990;
     1000000000000000; 4503599627370497]%Z = true.
Proof. vm_compute. reflexivity. Qed.

Lemma ok_range code data :
  (200 ≤ code ≤ 299)%N → ok {| status := code; text := data |} = true.
Proof.
  intros [? ?]. unfold ok. simpl.
  apply andb_true_iff. split; apply N.leb_le; lia.
Qed.

(** ** Failure bodies *)

Lemma failure_eq code message :
  Spec.failure code message = res_status_json code (error_body (Str message)).
Proof. reflexivity. Qed.

Lemma failure_body_inj code1 code2 m1 m2 :
  body (Spec.failure code1 m1) = body (Spec.failure code2 m2) → m1 = m2.
Proof.
  intros H.
  apply (f_equal (from_option (λ v, member v "error") Undefined)) in H.
  unfold Spec.failure, member in H. cbn [body from_option] in H.
  rewrite !lookup_singleton_eq in H. simpl in H. congruence.
Qed.

Lemma failure_message_inj code1 code2 m1 m2 :
  Spec.failure code1 m1 = Spec.failure code2 m2 → m1 = m2.
Proof. intros H. apply (failure_body_inj code1 code2). by rewrite H. Qed.

Lemma failure_has_error_field code message :
  Spec.has_error_field (Spec.failure code message).
Proof.
  exists {[ "error" := Str message ]}, (Str message).
  split; [reflexivity | apply lookup_singleton_eq].
Qed.

(** ** The [switch] of [/ai/:task] *)

Ltac switch_step :=
  unfold Server.prompt_of;
  cbn [Spec.task_name String.eqb Ascii.eqb Bool.eqb template_literal
       Spec.template Spec.substitute negb].

(** The templates of the [switch] are those of the table, for whatever
    the substitutions convert to. *)
Lemma switch_task_converted (t : Spec.Task) (content language : value) (c l : string) :
  ToString content = Some c →
  (t = Spec.translate → truthy language = true ∧ ToString language = Some l) →
  Server.switch_task (Spec.task_name t) content language
  = Server.Prompt (Spec.substitute (Spec.template t) c l).
Proof.
  intros Hc Hl. unfold Server.switch_task.
  destruct t; switch_step; rewrite ?Hc; try reflexivity.
  destruct (Hl eq_refl) as [Ht Hs]. rewrite Ht. switch_step. rewrite Hs.
  switch_step. reflexivity.
Qed.

(** A substitution that does not convert makes the [switch] throw. *)
Lemma switch_task_not_converted (t : Spec.Task) (content language : value) :
  (t = Spec.translate → truthy language = true) →
  ToString content = None ∨ (t = Spec.translate ∧ ToString language = None) →
  ∃ v, (v = content ∨ (t = Spec.translate ∧ v = language))
       ∧ ToString v = None
       ∧ Server.switch_task (Spec.task_name t) content language
         = Server.Raised (Convert v).
Proof.
  intros Hl Hnone. unfold Server.switch_task.
  destruct t; switch_step;
    try (destruct Hnone as [Hc|[[=] _]]; rewrite Hc; exists content; by auto).
  rewrite (Hl eq_refl). switch_step.
  destruct (ToString language) as [l|] eqn:Hlang; [|exists language; by auto].
  destruct Hnone as [Hc|[_ [=]]]. rewrite Hc. exists content. by auto.
Qed.

Lemma switch_task_template (t : Spec.Task) (content language : string) (lang : value) :
  (t = Spec.translate → lang = Str language ∧ language ≠ "") →
  Server.switch_task (Spec.task_name t) (Str content) lang
  = Server.Prompt (Spec.substitute (Spec.template t) content language).
Proof.
  intros Hl. apply switch_task_converted; [reflexivity|].
  intros E. destruct (Hl E) as [-> Hne]. cbn [truthy ToString].
  by rewrite (string_nonempty _ Hne).
Qed.

Lemma switch_task_no_language (content lang : value) :
  truthy lang = false →
  Server.switch_task "translate" content lang
  = Server.Refused (Spec.failure 400 "Language is required for translation").
Proof.
  intros H. unfold Server.switch_task. cbn [String.eqb Ascii.eqb Bool.eqb].
  by rewrite H.
Qed.

Lemma switch_task_unknown (task : string) (content language : value) :
  Spec.known_task task = false →
  Server.switch_task task content language = Server.Refused Spec.InvalidTask.
Proof.
  unfold Spec.known_task. cbn [existsb Spec.tasks Spec.task_name].
  intros H. repeat (apply orb_false_iff in H as [? H]).
  unfold Server.switch_task.
  by repeat match goal with
            | E : String.eqb _ _ = false |- _ => rewrite E; clear E
            end.
Qed.

Lemma prompt_of_nonempty (c : ascii) (s : string) (rest : list piece) (prompt : string) :
  Server.prompt_of (Text (String c s) :: rest) = Server.Prompt prompt → prompt ≠ "".
Proof.
  unfold Server.prompt_of. cbn [template_literal].
  destruct (template_literal rest); intros [= <-]. discriminate.
Qed.

Lemma switch_task_prompt_nonempty task content language prompt :
  Server.switch_task task content language = Server.Prompt prompt → prompt ≠ "".
Proof.
  unfold Server.switch_task. intros H.
  repeat match type of H with
         | (if ?b then _ else _) = _ => destruct b
         end; try discriminate H; by apply prompt_of_nonempty in H.
Qed.

Lemma switch_task_known (task : string) (content language : value) :
  Spec.known_task task = true →
  (∃ prompt, Server.switch_task task content language = Server.Prompt prompt)
  ∨ Server.switch_task task content language
    = Server.Refused (Spec.failure 400 "Language is required for translation")
  ∨ (∃ v, Server.switch_task task content language = Server.Raised (Convert v)).
Proof.
  unfold Spec.known_task. cbn [existsb Spec.tasks Spec.task_name].
  rewrite orb_false_r. intros H.
  repeat (apply orb_true_iff in H as [H|H]);
    apply String.eqb_eq in H; subst task; unfold Server.switch_task;
    cbn [String.eqb Ascii.eqb Bool.eqb]; unfold Server.prompt_of;
    try (destruct (template_literal _); by eauto).
  destruct (negb (truthy language)); [by eauto|].
  destruct (template_literal _); by eauto.
Qed.

(** ** [POST /ai/:task], branch by branch *)

Lemma ai_task_no_content (p : Process) (net : Net) (req : Request) :
  nullish (req_body req) = false →
  truthy (member (req_body req) "content") = false →
  run net (Server.app_post_ai_task p req) = ([], Spec.failure 400 "Content is required").
Proof.
  intros Hb Hc. js_unfold. rewrite Hb. js_step. rewrite Hc. js_step. reflexivity.
Qed.

Lemma ai_task_refused (p : Process) (net : Net) (req : Request) (r : HttpResponse) :
  truthy (member (req_body req) "content") = true →
  Server.switch_task (req_task req) (member (req_body req) "content")
    (member (req_body req) "language") = Server.Refused r →
  run net (Server.app_post_ai_task p req) = ([], r).
Proof.
  intros Hc Hs. js_unfold.
  rewrite (member_truthy_not_nullish _ _ Hc). js_step.
  rewrite Hc. js_step. rewrite Hs. js_step. reflexivity.
Qed.

Lemma ai_task_raised (p : Process) (net : Net) (req : Request) (a : access) :
  truthy (member (req_body req) "content") = true →
  Server.switch_task (req_task req) (member (req_body req) "content")
    (member (req_body req) "language") = Server.Raised a →
  run net (Server.app_post_ai_task p req)
  = ([], Spec.failure 500 ("Internal server error: " +:+ TypeError_message p a)).
Proof.
  intros Hc Hs. js_unfold.
  rewrite (member_truthy_not_nullish _ _ Hc). js_step.
  rewrite Hc. js_step. rewrite Hs. js_step. reflexivity.
Qed.

Lemma ai_task_calls (p : Process) (net : Net) (req : Request) (prompt : string) :
  truthy (member (req_body req) "content") = true →
  Server.switch_task (req_task req) (member (req_body req) "content")
    (member (req_body req) "language") = Server.Prompt prompt →
  fst (run net (Server.app_post_ai_task p req))
  = [(Server.translate_url req, Server.translate_call prompt)].
Proof.
  intros Hc Hs. js_unfold.
  rewrite (member_truthy_not_nullish _ _ Hc). js_step.
  rewrite Hc. js_step. rewrite Hs. js_step.
  destruct (net _ _) as [e|[code [v|e]]]; js_step; reflexivity.
Qed.

Lemma ai_task_status (p : Process) (net : Net) (req : Request) (prompt : string) :
  truthy (member (req_body req) "content") = true →
  Server.switch_task (req_task req) (member (req_body req) "content")
    (member (req_body req) "language") = Server.Prompt prompt →
  let r := snd (run net (Server.app_post_ai_task p req)) in
  status_code r = 200%N ∨ status_code r = 500%N.
Proof.
  intros Hc Hs. js_unfold.
  rewrite (member_truthy_not_nullish _ _ Hc). js_step.
  rewrite Hc. js_step. rewrite Hs. js_step.
  destruct (net _ _) as [e|[code [v|e]]]; js_step; auto.
Qed.

(** ** [POST /translate], branch by branch, in both deployments *)

Lemma accepted_prompt_inv document :
  accepted_prompt document = true →
  nullish document = false
  ∧ truthy (member document "prompt") = true
  ∧ String.eqb (typeof (member document "prompt")) "string" = true.
Proof.
  unfold accepted_prompt. intros [Ht Hs]%andb_true_iff.
  eauto using member_truthy_not_nullish.
Qed.

Lemma accepted_prompt_str document prompt :
  member document "prompt" = Str prompt → prompt ≠ "" → accepted_prompt document = true.
Proof.
  intros Hp Hne. unfold accepted_prompt. rewrite Hp. cbn [truthy typeof].
  by rewrite (string_nonempty _ Hne).
Qed.

Ltac js_upstream Hm Hacc Hkey Hnet Hcode :=
  let Hb := fresh "Hb" in
  let Ht := fresh "Ht" in
  let Hs := fresh "Hs" in
  destruct (accepted_prompt_inv _ Hacc) as (Hb & Ht & Hs);
  js_post Hm; rewrite Hb; js_step; rewrite Ht, Hs, Hkey; js_step;
  rewrite Hnet; js_step; rewrite (ok_range _ _ Hcode); js_step.

Lemma prompt_rejected (p : Process) (net : Net) (req : Request) :
  nullish (req_body req) = false →
  accepted_prompt (req_body req) = false →
  run net (Server.app_post_translate p req)
  = ([], Spec.failure 400 "Invalid request: prompt is required and must be a string")
  ∧ (req_method req = "POST" →
     run net (Api.handler p req)
     = ([], Spec.failure 400 "Invalid request: prompt is required and must be a string")).
Proof.
  unfold accepted_prompt. intros Hb Hacc.
  assert (Hcond : negb (truthy (member (req_body req) "prompt"))
                  || negb (String.eqb (typeof (member (req_body req) "prompt")) "string")
                  = true).
  { rewrite <- negb_andb, Hacc. reflexivity. }
  split; [|intros Hm]; [js_unfold|js_post Hm];
    rewrite Hb; js_step; rewrite Hcond; js_step; reflexivity.
Qed.

Lemma credential_missing (p : Process) (net : Net) (req : Request) :
  accepted_prompt (req_body req) = true →
  configured (GROQ_API_KEY p) = false →
  run net (Server.app_post_translate p req)
  = ([], Spec.failure 500
           "Server configuration error: GROQ_API_KEY not found in environment variables")
  ∧ (req_method req = "POST" →
     run net (Api.handler p req)
     = ([], Spec.failure 500 "Server configuration error: GROQ_API_KEY not found")).
Proof.
  intros (Hb & Ht & Hs)%accepted_prompt_inv Hkey.
  split; [|intros Hm]; [js_unfold|js_post Hm];
    rewrite Hb; js_step; rewrite Ht, Hs, Hkey; js_step; reflexivity.
Qed.

(** A success body other than [null] that lacks the message is answered
    with [MalformedUpstreamResponse]. *)
Lemma malformed_body_rejected (p : Process) (net : Net) (req : Request)
    (code : N) (data : value) :
  req_method req = "POST" →
  accepted_prompt (req_body req) = true →
  configured (GROQ_API_KEY p) = true →
  net GROQ_URL (chat_completion p (member (req_body req) "prompt"))
  = Resolved {| status := code; text := Json data |} →
  (200 ≤ code ≤ 299)%N →
  nullish data = false →
  Spec.has_choice_message data = false →
  snd (run net (Server.app_post_translate p req)) = Spec.MalformedUpstreamResponse
  ∧ snd (run net (Api.handler p req)) = Spec.MalformedUpstreamResponse.
Proof.
  intros Hm Hacc Hkey Hnet Hcode Hdata Hshape.
  unfold Spec.has_choice_message in Hshape.
  js_upstream Hm Hacc Hkey Hnet Hcode. rewrite Hdata. js_step.
  destruct (truthy (member data "choices")) eqn:Hc; js_step; [|done].
  rewrite (truthy_not_nullish _ Hc). js_step.
  destruct (truthy (element (member data "choices") 0)) eqn:He; js_step; [|done].
  rewrite (truthy_not_nullish _ He). js_step.
  rewrite Hshape. js_step. done.
Qed.

Example empty_object_is_malformed :
  snd (run (Sample.stub 200 (Obj ∅)) (Server.app_post_translate Sample.with_key Sample.say_hi))
  = Spec.MalformedUpstreamResponse
  ∧ snd (run (Sample.stub 200 (Obj ∅)) (Api.handler Sample.with_key Sample.say_hi))
    = Spec.MalformedUpstreamResponse.
Proof. by apply (malformed_body_rejected _ _ _ 200%N (Obj ∅)). Qed.

(** On the upstream-error branch the server attaches the upstream body as
    [details]; the serverless function sends the [error] field alone. *)
Lemma upstream_error_bodies (p : Process) (net : Net) (req : Request)
    (resp : Response) (data : value) :
  req_method req = "POST" →
  accepted_prompt (req_body req) = true →
  configured (GROQ_API_KEY p) = true →
  net GROQ_URL (chat_completion p (member (req_body req) "prompt")) = Resolved resp →
  ok resp = false → text resp = Json data → nullish data = false →
  let message := or_else (if nullish (member data "error") then Undefined
                          else member (member data "error") "message")
                   (Str "API request failed") in
  snd (run net (Server.app_post_translate p req))
  = res_status_json (status resp) (Obj (<[ "error" := message ]> {[ "details" := data ]}))
  ∧ snd (run net (Api.handler p req))
    = res_status_json (status resp) (error_body message).
Proof.
  intros Hm Hacc Hkey Hnet Hok Htext Hdata message.
  destruct (accepted_prompt_inv _ Hacc) as (Hb & Ht & Hs).
  js_post Hm. rewrite Hb. js_step. rewrite Ht, Hs, Hkey. js_step.
  rewrite Hnet. js_step. rewrite Hok. js_step.
  unfold json. rewrite Htext. js_step. rewrite Hdata. js_step. done.
Qed.

(** Every answer of the server's [/translate] carries a JSON body. *)
Lemma translate_always_json (p : Process) (net : Net) (req : Request) :
  ∃ v, body (snd (run net (Server.app_post_translate p req))) = Some v.
Proof.
  js_unfold.
  destruct (nullish (req_body req)); js_step; [by eauto|].
  destruct (negb _ || negb _); js_step; [by eauto|].
  destruct (negb (configured _)); js_step; [by eauto|].
  destruct (net _ _) as [e|[code [data|e]]]; js_step; [by eauto| |].
  - destruct (negb _); js_step.
    + destruct (nullish data); js_step; by eauto.
    + destruct (nullish data); js_step; [by eauto|].
      destruct (negb (truthy (member data "choices"))); js_step; [by eauto|].
      destruct (nullish (member data "choices")); js_step; [by eauto|].
      destruct (negb (truthy (element _ 0))); js_step; [by eauto|].
      destruct (nullish (element _ 0)); js_step; [by eauto|].
      destruct (negb (truthy (member _ "message"))); js_step; by eauto.
  - destruct (negb _); js_step; by eauto.
Qed.

(** ** [/ai/:task] through the server's own [/translate] *)

Lemma loopback_self (p : Process) (net : Net) (req : Request) (init : FetchInit) :
  loopback p net req (Server.translate_url req) init
  = served (snd (run net (Server.app_post_translate p
                            (translate_request req (payload init))))).
Proof. unfold loopback. by rewrite String.eqb_refl. Qed.

(** The route hands on the body of [/translate] and answers 200,
    whatever the status of [/translate] was. *)
Lemma ai_task_delegates (p : Process) (net : Net) (req : Request) (prompt : string) :
  truthy (member (req_body req) "content") = true →
  Server.switch_task (req_task req) (member (req_body req) "content")
    (member (req_body req) "language") = Server.Prompt prompt →
  let direct := snd (run net (Server.app_post_translate p
                                (translate_request req (Obj {[ "prompt" := Str prompt ]})))) in
  let ai := snd (run (loopback p net req) (Server.app_post_ai_task p req)) in
  status_code ai = 200%N ∧ body ai = body direct.
Proof.
  intros Hc Hs direct ai.
  destruct (translate_always_json p net
              (translate_request req (Obj {[ "prompt" := Str prompt ]}))) as [v Hv].
  fold direct in Hv. subst ai.
  unfold Server.app_post_ai_task, destructure.
  rewrite (member_truthy_not_nullish _ _ Hc). js_step.
  rewrite Hc. js_step. rewrite Hs. js_step.
  rewrite loopback_self.
  change (payload (Server.translate_call prompt)) with (Obj {[ "prompt" := Str prompt ]}).
  fold direct. unfold served. rewrite Hv. js_step. done.
Qed.

Example number_content_end_to_end :
  run (loopback Sample.with_key Sample.upstream Sample.summarise_5)
    (Server.app_post_ai_task Sample.with_key Sample.summarise_5)
  = ([("http://localhost:3000/translate",
       Server.translate_call
         ("Please provide a concise 2-3 sentence summary of the following text:"
          +:+ nl +:+ nl +:+ "5"))],
     {| status_code := 200; body := Some Sample.completion_X |}).
Proof. vm_compute. reflexivity. Qed.

(** ** The contract *)

(** C1.  For each of the seven tasks and every content string (and
    language string, for [translate]), the one call [POST /ai/:task] makes
    posts [{prompt}] to [/translate] with the prompt the template table
    gives, the strings spliced in as they are: the route makes either no
    call (it refuses an empty content, or an empty language for
    [translate]) or exactly this one, and it makes it whenever the content
    (and the language, for [translate]) is not empty. *)
Theorem ai_task_prompt_is_template (t : Spec.Task) (content language : string)
    (p : Process) (net : Net) (req : Request) :
  req_task req = Spec.task_name t →
  member (req_body req) "content" = Str content →
  (t = Spec.translate → member (req_body req) "language" = Str language) →
  let calls := fst (run net (Server.app_post_ai_task p req)) in
  let call := (Server.translate_url req,
               Server.translate_call (Spec.substitute (Spec.template t) content language)) in
  (calls = [] ∨ calls = [call])
  ∧ (content ≠ "" → (t = Spec.translate → language ≠ "") → calls = [call]).
Proof.
  intros Ht Hc Hl calls call.
  assert (Hbuilt : content ≠ "" → (t = Spec.translate → language ≠ "") → calls = [call]).
  { intros Hne Hlne. apply ai_task_calls.
    - rewrite Hc. cbn [truthy]. by rewrite (string_nonempty _ Hne).
    - rewrite Ht, Hc. apply switch_task_template. intros E. split; auto. }
  split; [|exact Hbuilt].
  destruct (String.eqb content "") eqn:Hce.
  { left. unfold calls. rewrite ai_task_no_content; [reflexivity| |].
    - by apply member_str_inv in Hc.
    - rewrite Hc. cbn [truthy]. by rewrite Hce. }
  apply String.eqb_neq in Hce.
  destruct (decide (t = Spec.translate)) as [E|E]; [|right; apply Hbuilt; [done|tauto]].
  destruct (String.eqb language "") eqn:Hle.
  - left. unfold calls.
    rewrite (ai_task_refused p net req
               (Spec.failure 400 "Language is required for translation"));
      [reflexivity| |].
    + rewrite Hc. cbn [truthy]. by rewrite (string_nonempty _ Hce).
    + rewrite Ht, Hc, (Hl E), E. apply switch_task_no_language. cbn [truthy]. by rewrite Hle.
  - right. apply Hbuilt; [done|]. intros _. by apply String.eqb_neq.
Qed.

Lemma ai_task_prompt_is_template_witness :
  fst (run Sample.upstream (Server.app_post_ai_task Sample.with_key Sample.translate_special))
  = [("http://localhost:3000/translate",
      Server.translate_call
        ("Translate the following text to French. Maintain the original meaning and tone. Only return the translated text without any additional comments:"
         +:+ nl +:+ nl +:+ Sample.special))].
Proof.
  apply (ai_task_prompt_is_template Spec.translate Sample.special "French"
           Sample.with_key Sample.upstream Sample.translate_special).
  - reflexivity.
  - reflexivity.
  - reflexivity.
  - discriminate.
  - discriminate.
Defined.

(** C2.  When the request is accepted, the credential is configured and
    the upstream answers the call with a success status and a body that
    has a non-empty [choices[0].message], [POST /translate] answers 200
    with that very body, in the server and in the serverless function. *)
Theorem translate_success_passthrough (p : Process) (net : Net) (req : Request)
    (prompt : string) (code : N) (data : value) :
  req_method req = "POST" →
  member (req_body req) "prompt" = Str prompt →
  prompt ≠ "" →
  configured (GROQ_API_KEY p) = true →
  net GROQ_URL (chat_completion p (Str prompt))
  = Resolved {| status := code; text := Json data |} →
  (200 ≤ code ≤ 299)%N →
  Spec.has_choice_message data = true →
  snd (run net (Server.app_post_translate p req)) = {| status_code := 200; body := Some data |}
  ∧ snd (run net (Api.handler p req)) = {| status_code := 200; body := Some data |}.
Proof.
  intros Hm Hp Hne Hkey Hnet Hcode Hshape.
  unfold Spec.has_choice_message in Hshape.
  pose proof (element_truthy_base _ _ Hshape) as Hc.
  pose proof (member_truthy_inv _ _ Hshape) as [e He].
  pose proof (truthy_not_nullish _ Hc) as Hcn.
  pose proof (member_truthy_not_nullish _ _ Hc) as Hdn.
  pose proof (accepted_prompt_str _ _ Hp Hne) as Hacc.
  rewrite <- Hp in Hnet.
  js_upstream Hm Hacc Hkey Hnet Hcode.
  rewrite Hdn. js_step. rewrite Hc, Hcn. js_step.
  rewrite He in Hshape |- *. js_step.
  rewrite Hshape. js_step. done.
Qed.

Lemma translate_success_passthrough_witness :
  snd (run Sample.upstream (Server.app_post_translate Sample.with_key Sample.say_hi))
  = {| status_code := 200; body := Some Sample.completion_X |}
  ∧ snd (run Sample.upstream (Api.handler Sample.with_key Sample.say_hi))
    = {| status_code := 200; body := Some Sample.completion_X |}.
Proof.
  apply (translate_success_passthrough Sample.with_key Sample.upstream Sample.say_hi
           "hi" 200%N Sample.completion_X).
  - reflexivity.
  - reflexivity.
  - discriminate.
  - reflexivity.
  - reflexivity.
  - lia.
  - reflexivity.
Defined.

(** C3, at the input where the code departs from it.  With no credential
    configured, [/translate] answers the resolved prompt with 500; the
    task route, which reaches [/translate] through the server's own
    address, hands on the same body but answers 200: it sends
    [res.json(data)] and never reads [response.status]. *)
Theorem ai_task_hides_translate_status (p : Process) (net : Net) (req : Request)
    (prompt : string) :
  configured (GROQ_API_KEY p) = false →
  truthy (member (req_body req) "content") = true →
  Server.switch_task (req_task req) (member (req_body req) "content")
    (member (req_body req) "language") = Server.Prompt prompt →
  let direct := snd (run net (Server.app_post_translate p
                                (translate_request req (Obj {[ "prompt" := Str prompt ]})))) in
  let ai := snd (run (loopback p net req) (Server.app_post_ai_task p req)) in
  status_code direct = 500%N ∧ status_code ai = 200%N ∧ body ai = body direct.
Proof.
  intros Hkey Hc Hs direct ai.
  split; [|by apply ai_task_delegates].
  subst direct.
  destruct (credential_missing p net
              (translate_request req (Obj {[ "prompt" := Str prompt ]}))) as [-> _];
    [|done|done].
  apply (accepted_prompt_str _ prompt); [reflexivity|].
  by apply switch_task_prompt_nonempty in Hs.
Qed.

Lemma ai_task_hides_translate_status_witness :
  status_code (snd (run Sample.upstream
     (Server.app_post_translate Sample.without_key
        (translate_request Sample.summarise_hi
           (Obj {[ "prompt" := Str (Spec.substitute (Spec.template Spec.summary) "hi" "") ]})))))
  = 500%N
  ∧ status_code (snd (run (loopback Sample.without_key Sample.upstream Sample.summarise_hi)
                        (Server.app_post_ai_task Sample.without_key Sample.summarise_hi)))
    = 200%N
  ∧ body (snd (run (loopback Sample.without_key Sample.upstream Sample.summarise_hi)
                 (Server.app_post_ai_task Sample.without_key Sample.summarise_hi)))
    = body (snd (run Sample.upstream
         (Server.app_post_translate Sample.without_key
            (translate_request Sample.summarise_hi
               (Obj {[ "prompt" := Str (Spec.substitute (Spec.template Spec.summary) "hi" "") ]}))))).
Proof.
  apply (ai_task_hides_translate_status Sample.without_key Sample.upstream Sample.summarise_hi
           (Spec.substitute (Spec.template Spec.summary) "hi" "")).
  - reflexivity.
  - reflexivity.
  - reflexivity.
Defined.

(** C4, at the input where the code departs from it.  [/ai/:task] tests
    [content] for truthiness only: an integer other than zero (of
    magnitude at most 2^53, where a number is printed by its digits) is
    not refused, its digits are spliced into the prompt and the call of
    [/translate] is made; the answer is never 400. *)
Theorem ai_task_accepts_number_content (p : Process) (net : Net) (req : Request) (z : Z) :
  req_task req = "summary" →
  member (req_body req) "content" = Num (inject_Z z) →
  z ≠ 0%Z →
  (Z.abs z ≤ 2 ^ 53)%Z →
  let out := run net (Server.app_post_ai_task p req) in
  fst out = [(Server.translate_url req,
              Server.translate_call
                ("Please provide a concise 2-3 sentence summary of the following text:"
                 +:+ nl +:+ nl +:+ pretty z))]
  ∧ status_code (snd out) ≠ 400%N.
Proof.
  intros Ht Hc Hz Hsafe out.
  assert (Htruthy : truthy (member (req_body req) "content") = true).
  { rewrite Hc. by apply integer_truthy. }
  assert (Hs : Server.switch_task (req_task req) (member (req_body req) "content")
                 (member (req_body req) "language")
               = Server.Prompt
                   ("Please provide a concise 2-3 sentence summary of the following text:"
                    +:+ nl +:+ nl +:+ pretty z)).
  { rewrite Ht, Hc.
    rewrite (switch_task_converted Spec.summary _ _ (pretty z) "").
    - cbn [Spec.template Spec.substitute]. by rewrite append_empty_r.
    - cbn [ToString]. by rewrite number_text_integer.
    - discriminate. }
  split.
  - by apply ai_task_calls.
  - destruct (ai_task_status p net req _ Htruthy Hs) as [H|H];
      subst out; rewrite H; discriminate.
Qed.

Lemma ai_task_accepts_number_content_witness :
  status_code (snd (run (loopback Sample.with_key Sample.upstream Sample.summarise_5)
                      (Server.app_post_ai_task Sample.with_key Sample.summarise_5)))
  ≠ 400%N.
Proof.
  apply (ai_task_accepts_number_content Sample.with_key
           (loopback Sample.with_key Sample.upstream Sample.summarise_5)
           Sample.summarise_5 5).
  - reflexivity.
  - reflexivity.
  - discriminate.
  - lia.
Defined.

(** C5 as stated fails: an unknown task with an empty body is answered
    with the content failure, not with [InvalidTask]. *)
Lemma unknown_task_without_content_counterexample :
  Spec.known_task (req_task Sample.bogus_empty) = false
  ∧ snd (run Sample.upstream (Server.app_post_ai_task Sample.with_key Sample.bogus_empty))
    = Spec.failure 400 "Content is required"
  ∧ snd (run Sample.upstream (Server.app_post_ai_task Sample.with_key Sample.bogus_empty))
    ≠ Spec.InvalidTask.
Proof.
  split; [reflexivity|].
  rewrite ai_task_no_content by reflexivity. cbn [snd].
  split; [reflexivity|].
  intros H%failure_message_inj. discriminate H.
Qed.

(** C5, amended.  The content test comes first.  A request for an
    unknown task whose body has a truthy [content] is answered, with no
    call made, by the [InvalidTask] failure (400) that lists the valid
    tasks, whatever else the body holds; one whose body has no truthy
    [content] is answered by the 400 content failure. *)
Theorem unknown_task_is_invalid_task (p : Process) (net : Net) (req : Request) :
  Spec.known_task (req_task req) = false →
  (truthy (member (req_body req) "content") = true →
   run net (Server.app_post_ai_task p req) = ([], Spec.InvalidTask))
  ∧ (nullish (req_body req) = false →
     truthy (member (req_body req) "content") = false →
     run net (Server.app_post_ai_task p req) = ([], Spec.failure 400 "Content is required")).
Proof.
  intros Ht. split.
  - intros Hc. apply ai_task_refused; [done|]. by apply switch_task_unknown.
  - intros Hb Hc. by apply ai_task_no_content.
Qed.

Lemma unknown_task_is_invalid_task_witness :
  run Sample.upstream (Server.app_post_ai_task Sample.with_key Sample.bogus_hello)
  = ([], Spec.InvalidTask).
Proof.
  apply (unknown_task_is_invalid_task Sample.with_key Sample.upstream Sample.bogus_hello).
  - reflexivity.
  - reflexivity.
Defined.




(** C7, at the input where the code departs from it.  The success body
    [null] lacks [choices[0].message], yet it is not answered with
    [MalformedUpstreamResponse]: reading [data.choices] throws, and the
    [catch] answers 500 with the message of the [TypeError].  (Every
    other body that lacks the message is answered as the claim says, see
    [malformed_body_rejected].) *)
Theorem null_body_is_internal_fault (p : Process) (net : Net) (req : Request) (code : N) :
  req_method req = "POST" →
  accepted_prompt (req_body req) = true →
  configured (GROQ_API_KEY p) = true →
  net GROQ_URL (chat_completion p (member (req_body req) "prompt"))
  = Resolved {| status := code; text := Json Null |} →
  (200 ≤ code ≤ 299)%N →
  let fault := Spec.failure 500 ("Internal server error: "
                                 +:+ TypeError_message p (Read Null "choices")) in
  Spec.has_choice_message Null = false
  ∧ snd (run net (Server.app_post_translate p req)) = fault
  ∧ snd (run net (Api.handler p req)) = fault
  ∧ fault ≠ Spec.MalformedUpstreamResponse.
Proof.
  intros Hm Hacc Hkey Hnet Hcode fault.
  split; [reflexivity|].
  assert (Hne : fault ≠ Spec.MalformedUpstreamResponse).
  { intros H%failure_message_inj. discriminate H. }
  split; [|split; [|exact Hne]]; js_upstream Hm Hacc Hkey Hnet Hcode; reflexivity.
Qed.

Lemma null_body_is_internal_fault_witness :
  snd (run (Sample.stub 200 Null) (Server.app_post_translate Sample.with_key Sample.say_hi))
  = Spec.failure 500
      "Internal server error: Cannot read properties of null (reading 'choices')".
Proof.
  apply (null_body_is_internal_fault Sample.with_key (Sample.stub 200 Null)
           Sample.say_hi 200%N).
  - reflexivity.
  - reflexivity.
  - reflexivity.
  - reflexivity.
  - lia.
Defined.

(** C8.  [POST /translate] with the body [{}] is answered 400 with a
    JSON object that has an [error] field; with the body [{prompt:"hi"}]
    and no credential configured it is answered 500 with the
    missing-credential failure, and no call is made.  Both hold of the
    server and of the serverless function. *)
Theorem translate_empty_body_and_missing_credential (p : Process) (net : Net) (req : Request) :
  req_method req = "POST" →
  (req_body req = Obj ∅ →
   let s := run net (Server.app_post_translate p req) in
   let a := run net (Api.handler p req) in
   (status_code (snd s) = 400%N ∧ Spec.has_error_field (snd s))
   ∧ (status_code (snd a) = 400%N ∧ Spec.has_error_field (snd a)))
  ∧ (req_body req = Obj {[ "prompt" := Str "hi" ]} →
     configured (GROQ_API_KEY p) = false →
     run net (Server.app_post_translate p req)
     = ([], Spec.failure 500
              "Server configuration error: GROQ_API_KEY not found in environment variables")
     ∧ run net (Api.handler p req)
       = ([], Spec.failure 500 "Server configuration error: GROQ_API_KEY not found")).
Proof.
  intros Hm. split.
  - intros Hb s a.
    destruct (prompt_rejected p net req) as [Hs Ha]; [by rewrite Hb..|].
    subst s a. rewrite Hs, (Ha Hm). cbn [snd].
    split; (split; [reflexivity|apply failure_has_error_field]).
  - intros Hb Hkey.
    destruct (credential_missing p net req) as [Hs Ha]; [by rewrite Hb|done|].
    split; [exact Hs|exact (Ha Hm)].
Qed.

Lemma translate_empty_body_and_missing_credential_witness :
  status_code (snd (run Sample.upstream
                      (Server.app_post_translate Sample.without_key Sample.empty_post)))
  = 400%N
  ∧ run Sample.upstream (Api.handler Sample.without_key Sample.say_hi)
    = ([], Spec.failure 500 "Server configuration error: GROQ_API_KEY not found").
Proof.
  split.
  - apply (translate_empty_body_and_missing_credential Sample.without_key
             Sample.upstream Sample.empty_post).
    + reflexivity.
    + reflexivity.
  - apply (translate_empty_body_and_missing_credential Sample.without_key
             Sample.upstream Sample.say_hi).
    + reflexivity.
    + reflexivity.
    + reflexivity.
Defined.





(** With the upstream out of reach the status codes agree, as the
    theorem says, and the bodies carry the two wordings. *)
Example deployments_differ_on_transport_failure :
  same_upstream Sample.node_fetch_down Sample.global_fetch_down
  ∧ snd (run Sample.node_fetch_down (Server.app_post_translate Sample.with_key Sample.say_hi))
    = Spec.failure 500
        "Internal server error: request to https://api.groq.com/openai/v1/chat/completions failed, reason: connect ECONNREFUSED"
  ∧ snd (run Sample.global_fetch_down (Api.handler Sample.with_key Sample.say_hi))
    = Spec.failure 500 "Internal server error: fetch failed".
Proof. split; [by intros url init|]. split; reflexivity. Qed.

(** C10.  The empty string is refused although it is present and a
    string: [POST /translate] with [prompt === ""] is answered 400, in
    the server and in the serverless function, and [POST /ai/:task] with
    [content === ""] is answered 400, for every task; no call is made. *)
Theorem empty_string_is_rejected (p : Process) (net : Net) (req : Request) :
  (member (req_body req) "prompt" = Str "" →
   run net (Server.app_post_translate p req)
   = ([], Spec.failure 400 "Invalid request: prompt is required and must be a string")
   ∧ (req_method req = "POST" →
      run net (Api.handler p req)
      = ([], Spec.failure 400 "Invalid request: prompt is required and must be a string")))
  ∧ (member (req_body req) "content" = Str "" →
     run net (Server.app_post_ai_task p req) = ([], Spec.failure 400 "Content is required")).
Proof.
  split.
  - intros Hp. apply prompt_rejected.
    + by apply member_str_inv in Hp.
    + unfold accepted_prompt. by rewrite Hp.
  - intros Hc. apply ai_task_no_content.
    + by apply member_str_inv in Hc.
    + by rewrite Hc.
Qed.

Lemma empty_string_is_rejected_witness :
  run Sample.upstream (Api.handler Sample.with_key Sample.empty_prompt)
  = ([], Spec.failure 400 "Invalid request: prompt is required and must be a string")
  ∧ run Sample.upstream (Server.app_post_ai_task Sample.with_key Sample.summarise_nothing)
    = ([], Spec.failure 400 "Content is required").
Proof.
  split.
  - apply (empty_string_is_rejected Sample.with_key Sample.upstream Sample.empty_prompt).
    + reflexivity.
    + reflexivity.
  - apply (empty_string_is_rejected Sample.with_key Sample.upstream Sample.summarise_nothing).
    reflexivity.
Defined.

(** ** Further properties of the handlers *)

Lemma accepted_prompt_iff document :
  accepted_prompt document = true ↔ ∃ s, member document "prompt" = Str s ∧ s ≠ "".
Proof.
  split.
  - unfold accepted_prompt. intros [Ht Hs]%andb_true_iff.
    destruct (member document "prompt") as [| |b|z|s|l|m]; try discriminate Hs.
    exists s. split; [reflexivity|]. intros ->. discriminate Ht.
  - intros (s & Hp & Hne). by apply (accepted_prompt_str _ s).
Qed.

Lemma nullish_not_accepted document : nullish document = true → accepted_prompt document = false.
Proof. by destruct document. Qed.

Ltac js_call Hm Hacc Hkey :=
  let Hb := fresh "Hb" in
  let Ht := fresh "Ht" in
  let Hs := fresh "Hs" in
  destruct (accepted_prompt_inv _ Hacc) as (Hb & Ht & Hs);
  js_post Hm; rewrite Hb; js_step; rewrite Ht, Hs, Hkey; js_step.

Lemma translate_calls_when_ready (p : Process) (net : Net) (req : Request) :
  req_method req = "POST" →
  accepted_prompt (req_body req) = true →
  configured (GROQ_API_KEY p) = true →
  fst (run net (Server.app_post_translate p req))
  = [(GROQ_URL, chat_completion p (member (req_body req) "prompt"))]
  ∧ fst (run net (Api.handler p req))
    = [(GROQ_URL, chat_completion p (member (req_body req) "prompt"))].
Proof.
  intros Hm Hacc Hkey. js_call Hm Hacc Hkey.
  destruct (net GROQ_URL _) as [e|[code [data|e]]]; js_step; [done| |].
  - destruct (negb (ok _)); js_step.
    + destruct (nullish data); js_step; done.
    + destruct (nullish data); js_step; [done|].
      destruct (negb (truthy (member data "choices"))); js_step; [done|].
      destruct (nullish (member data "choices")); js_step; [done|].
      destruct (negb (truthy (element _ 0))); js_step; [done|].
      destruct (nullish (element _ 0)); js_step; [done|].
      destruct (negb (truthy (member _ "message"))); js_step; done.
  - destruct (negb (ok _)); js_step; done.
Qed.

Lemma translate_null_body (p : Process) (net : Net) (req : Request) :
  nullish (req_body req) = true →
  run net (Server.app_post_translate p req)
  = ([], Spec.failure 500 ("Internal server error: "
                           +:+ TypeError_message p (Destructure (req_body req) "prompt")))
  ∧ (req_method req = "POST" →
     run net (Api.handler p req)
     = ([], Spec.failure 500 ("Internal server error: "
                              +:+ TypeError_message p (Destructure (req_body req) "prompt")))).
Proof.
  intros Hb. split; [|intros Hm]; [js_unfold|js_post Hm]; rewrite Hb; js_step; reflexivity.
Qed.

Lemma translate_transport_failure_steps (p : Process) (net : Net) (req : Request)
    (message : string) :
  req_method req = "POST" →
  accepted_prompt (req_body req) = true →
  configured (GROQ_API_KEY p) = true →
  net GROQ_URL (chat_completion p (member (req_body req) "prompt")) = Rejected message →
  snd (run net (Server.app_post_translate p req))
  = Spec.failure 500 ("Internal server error: " +:+ message)
  ∧ snd (run net (Api.handler p req))
    = Spec.failure 500 ("Internal server error: " +:+ message).
Proof.
  intros Hm Hacc Hkey Hnet. js_call Hm Hacc Hkey.
  rewrite Hnet. js_step. done.
Qed.

(** X1.  Validation of [prompt] is exact.  For a request with a body,
    [POST /translate] answers the 400 failure without calling upstream
    exactly when [prompt] is not a non-empty string (missing, another
    type, or the empty string), in both deployments. *)
Theorem translate_prompt_validation_exact (p : Process) (net : Net) (req : Request) :
  req_method req = "POST" →
  nullish (req_body req) = false →
  let invalid : list (string * FetchInit) * HttpResponse :=
    ([], Spec.failure 400 "Invalid request: prompt is required and must be a string") in
  (run net (Server.app_post_translate p req) = invalid
   ↔ ¬ ∃ s, member (req_body req) "prompt" = Str s ∧ s ≠ "")
  ∧ (run net (Api.handler p req) = invalid
     ↔ ¬ ∃ s, member (req_body req) "prompt" = Str s ∧ s ≠ "").
Proof.
  intros Hm Hb invalid. rewrite <- accepted_prompt_iff.
  destruct (accepted_prompt (req_body req)) eqn:Hacc.
  - assert (Hs : run net (Server.app_post_translate p req) ≠ invalid
                 ∧ run net (Api.handler p req) ≠ invalid).
    { destruct (configured (GROQ_API_KEY p)) eqn:Hkey.
      - destruct (translate_calls_when_ready p net req Hm Hacc Hkey) as [Hs Ha].
        split; intros E; [rewrite E in Hs|rewrite E in Ha]; discriminate.
      - destruct (credential_missing p net req Hacc Hkey) as [Hs Ha].
        rewrite Hs, (Ha Hm). split; intros E; apply (f_equal (λ o, status_code (snd o))) in E;
          discriminate E. }
    destruct Hs as [Hs Ha]. split; split; intros H; done.
  - destruct (prompt_rejected p net req Hb Hacc) as [Hs Ha].
    split; split; intros H; auto; discriminate.
Qed.

Lemma translate_prompt_validation_exact_witness :
  run Sample.upstream (Api.handler Sample.with_key Sample.empty_post)
  = ([], Spec.failure 400 "Invalid request: prompt is required and must be a string").
Proof.
  apply (translate_prompt_validation_exact Sample.with_key Sample.upstream Sample.empty_post).
  - reflexivity.
  - reflexivity.
  - intros (s & Hs & _). discriminate Hs.
Defined.

(** X2.  No retry and no needless call.  [POST /translate] calls the
    completion API exactly once, with the prompt as given, when the
    prompt is accepted and the credential is configured, and not at all
    otherwise; no other address is ever called.  Both deployments. *)
Theorem translate_calls_upstream_at_most_once (p : Process) (net : Net) (req : Request) :
  req_method req = "POST" →
  let calls :=
    if accepted_prompt (req_body req) && configured (GROQ_API_KEY p)
    then [(GROQ_URL, chat_completion p (member (req_body req) "prompt"))]
    else [] in
  fst (run net (Server.app_post_translate p req)) = calls
  ∧ fst (run net (Api.handler p req)) = calls.
Proof.
  intros Hm calls. subst calls.
  destruct (accepted_prompt (req_body req)) eqn:Hacc; cbn [andb].
  - destruct (configured (GROQ_API_KEY p)) eqn:Hkey.
    + by apply translate_calls_when_ready.
    + destruct (credential_missing p net req Hacc Hkey) as [-> Ha]. by rewrite (Ha Hm).
  - destruct (nullish (req_body req)) eqn:Hb.
    + destruct (translate_null_body p net req Hb) as [-> Ha]. by rewrite (Ha Hm).
    + destruct (prompt_rejected p net req Hb Hacc) as [-> Ha]. by rewrite (Ha Hm).
Qed.

Lemma translate_calls_upstream_at_most_once_witness :
  fst (run (Sample.stub 503 Null) (Api.handler Sample.with_key Sample.say_hi))
  = [(GROQ_URL, chat_completion Sample.with_key (Str "hi"))].
Proof.
  apply (translate_calls_upstream_at_most_once Sample.with_key (Sample.stub 503 Null)
           Sample.say_hi).
  reflexivity.
Defined.

(** X3.  A transport failure is reported, not retried.  When [fetch]
    rejects with a message, [POST /translate] has made its one call and
    answers 500 with [Internal server error: ] followed by that message,
    in both deployments. *)
Theorem translate_transport_failure (p : Process) (net : Net) (req : Request)
    (message : string) :
  req_method req = "POST" →
  accepted_prompt (req_body req) = true →
  configured (GROQ_API_KEY p) = true →
  net GROQ_URL (chat_completion p (member (req_body req) "prompt")) = Rejected message →
  let out : list (string * FetchInit) * HttpResponse :=
    ([(GROQ_URL, chat_completion p (member (req_body req) "prompt"))],
     Spec.failure 500 ("Internal server error: " +:+ message)) in
  run net (Server.app_post_translate p req) = out
  ∧ run net (Api.handler p req) = out.
Proof.
  intros Hm Hacc Hkey Hnet out. js_call Hm Hacc Hkey.
  rewrite Hnet. js_step. done.
Qed.

Lemma translate_transport_failure_witness :
  snd (run (λ _ _, Rejected "connect ECONNREFUSED")
         (Server.app_post_translate Sample.with_key Sample.say_hi))
  = Spec.failure 500 "Internal server error: connect ECONNREFUSED".
Proof.
  pose proof (translate_transport_failure Sample.with_key
                (λ _ _, Rejected "connect ECONNREFUSED") Sample.say_hi
                "connect ECONNREFUSED" eq_refl eq_refl eq_refl eq_refl) as [H _].
  rewrite H. reflexivity.
Defined.

(** X4.  An upstream answer whose body is not JSON is answered 500 with
    the message of the parse failure, whatever the upstream status was
    (success or not); the upstream status is not passed on.  Both
    deployments. *)
Theorem translate_unparsable_upstream_body (p : Process) (net : Net) (req : Request)
    (code : N) (message : string) :
  req_method req = "POST" →
  accepted_prompt (req_body req) = true →
  configured (GROQ_API_KEY p) = true →
  net GROQ_URL (chat_completion p (member (req_body req) "prompt"))
  = Resolved {| status := code; text := Unparsable message |} →
  snd (run net (Server.app_post_translate p req))
  = Spec.failure 500 ("Internal server error: " +:+ message)
  ∧ snd (run net (Api.handler p req))
    = Spec.failure 500 ("Internal server error: " +:+ message).
Proof.
  intros Hm Hacc Hkey Hnet. js_call Hm Hacc Hkey.
  rewrite Hnet. js_step.
  destruct (negb (ok _)); js_step; done.
Qed.

Lemma translate_unparsable_upstream_body_witness :
  snd (run (λ _ _, Resolved {| status := 502; text := Unparsable "Unexpected token <" |})
         (Api.handler Sample.with_key Sample.say_hi))
  = Spec.failure 500 "Internal server error: Unexpected token <".
Proof.
  apply (translate_unparsable_upstream_body Sample.with_key
           (λ _ _, Resolved {| status := 502; text := Unparsable "Unexpected token <" |})
           Sample.say_hi 502%N "Unexpected token <"); reflexivity.
Defined.

Lemma member_nullish v name : nullish v = true → member v name = Undefined.
Proof. by destruct v. Qed.

Lemma optional_member v name :
  (if nullish v then Undefined else member v name) = member v name.
Proof. by destruct v. Qed.

Lemma or_else_truthy v s : s ≠ "" → truthy (or_else v (Str s)) = true.
Proof.
  intros Hne. unfold or_else. destruct (truthy v) eqn:Hv; [exact Hv|].
  cbn [truthy]. by rewrite (string_nonempty _ Hne).
Qed.

Lemma ok_false_range code data :
  ok {| status := code; text := data |} = false → ¬ (200 ≤ code ≤ 299)%N.
Proof. intros H Hr. by rewrite (ok_range _ _ Hr) in H. Qed.

Lemma ok_true_range code data :
  ok {| status := code; text := data |} = true → (200 ≤ code ≤ 299)%N.
Proof.
  unfold ok. cbn [status]. intros [H1 H2]%andb_true_iff.
  apply N.leb_le in H1, H2. lia.
Qed.

Lemma translate_passes_on (p : Process) (net : Net) (req : Request) (code : N) (data : value) :
  req_method req = "POST" →
  accepted_prompt (req_body req) = true →
  configured (GROQ_API_KEY p) = true →
  net GROQ_URL (chat_completion p (member (req_body req) "prompt"))
  = Resolved {| status := code; text := Json data |} →
  (200 ≤ code ≤ 299)%N →
  Spec.has_choice_message data = true →
  snd (run net (Server.app_post_translate p req)) = {| status_code := 200; body := Some data |}
  ∧ snd (run net (Api.handler p req)) = {| status_code := 200; body := Some data |}.
Proof.
  intros Hm Hacc Hkey Hnet Hcode Hshape.
  unfold Spec.has_choice_message in Hshape.
  pose proof (element_truthy_base _ _ Hshape) as Hc.
  pose proof (member_truthy_inv _ _ Hshape) as [e He].
  pose proof (truthy_not_nullish _ Hc) as Hcn.
  pose proof (member_truthy_not_nullish _ _ Hc) as Hdn.
  js_upstream Hm Hacc Hkey Hnet Hcode.
  rewrite Hdn. js_step. rewrite Hc, Hcn. js_step.
  rewrite He in Hshape |- *. js_step.
  rewrite Hshape. js_step. done.
Qed.

Lemma translate_upstream_null (p : Process) (net : Net) (req : Request) (code : N) :
  req_method req = "POST" →
  accepted_prompt (req_body req) = true →
  configured (GROQ_API_KEY p) = true →
  net GROQ_URL (chat_completion p (member (req_body req) "prompt"))
  = Resolved {| status := code; text := Json Null |} →
  let name := if ok {| status := code; text := Json Null |} then "choices" else "error" in
  snd (run net (Server.app_post_translate p req))
  = Spec.failure 500 ("Internal server error: " +:+ TypeError_message p (Read Null name))
  ∧ snd (run net (Api.handler p req))
    = Spec.failure 500 ("Internal server error: " +:+ TypeError_message p (Read Null name)).
Proof.
  intros Hm Hacc Hkey Hnet name. subst name. js_call Hm Hacc Hkey.
  rewrite Hnet. js_step.
  destruct (ok _); js_step; done.
Qed.

(** The answers of [POST /translate], sorted: a failure of the handler's
    own (400 or 500), the upstream's error passed on, or the upstream's
    success body passed on. *)
Lemma translate_outcome (p : Process) (net : Net) (req : Request) :
  req_method req = "POST" →
  let s := snd (run net (Server.app_post_translate p req)) in
  let a := snd (run net (Api.handler p req)) in
  (∃ code m1 m2, (code = 400 ∨ code = 500)%N
                 ∧ s = Spec.failure code m1 ∧ a = Spec.failure code m2)
  ∨ (∃ resp data e,
       net GROQ_URL (chat_completion p (member (req_body req) "prompt")) = Resolved resp
       ∧ ok resp = false ∧ text resp = Json data
       ∧ s = res_status_json (status resp) (Obj (<[ "error" := e ]> {[ "details" := data ]}))
       ∧ a = res_status_json (status resp) (error_body e))
  ∨ (∃ code data,
       net GROQ_URL (chat_completion p (member (req_body req) "prompt"))
       = Resolved {| status := code; text := Json data |}
       ∧ (200 ≤ code ≤ 299)%N
       ∧ Spec.has_choice_message data = true
       ∧ s = {| status_code := 200; body := Some data |}
       ∧ a = {| status_code := 200; body := Some data |}).
Proof.
  intros Hm s a. subst s a.
  destruct (accepted_prompt (req_body req)) eqn:Hacc.
  2:{ left. destruct (nullish (req_body req)) eqn:Hb.
      - destruct (translate_null_body p net req Hb) as [-> Ha]. rewrite (Ha Hm).
        cbn [snd]. eauto 10.
      - destruct (prompt_rejected p net req Hb Hacc) as [-> Ha]. rewrite (Ha Hm).
        cbn [snd]. eauto 10. }
  destruct (configured (GROQ_API_KEY p)) eqn:Hkey.
  2:{ left. destruct (credential_missing p net req Hacc Hkey) as [-> Ha]. rewrite (Ha Hm).
      cbn [snd]. eauto 10. }
  destruct (net GROQ_URL (chat_completion p (member (req_body req) "prompt")))
    as [e|[code [data|e]]] eqn:Hnet.
  - left. destruct (translate_transport_failure_steps p net req e Hm Hacc Hkey Hnet) as [-> ->].
    eauto 10.
  - destruct (nullish data) eqn:Hdata.
    { left. destruct data; try discriminate Hdata.
      - js_call Hm Hacc Hkey. rewrite Hnet. js_step.
        destruct (negb (ok _)); js_step; exists 500%N; eexists; eexists;
          (split; [by right|split; reflexivity]).
      - destruct (translate_upstream_null p net req code Hm Hacc Hkey Hnet) as [-> ->].
        eauto 10. }
    destruct (ok {| status := code; text := Json data |}) eqn:Hok.
    + apply ok_true_range in Hok.
      destruct (Spec.has_choice_message data) eqn:Hshape.
      * right. right.
        destruct (translate_passes_on p net req code data Hm Hacc Hkey Hnet Hok Hshape)
          as [-> ->].
        exists code, data. done.
      * left.
        destruct (malformed_body_rejected p net req code data Hm Hacc Hkey Hnet Hok Hdata Hshape)
          as [-> ->].
        exists 500%N. eexists. eexists. split; [by right|split; reflexivity].
    + right. left.
      destruct (upstream_error_bodies p net req _ data Hm Hacc Hkey Hnet Hok eq_refl Hdata)
        as [-> ->].
      eexists. eexists. eexists. split; [reflexivity|]. split; [exact Hok|].
      split; [reflexivity|]. split; reflexivity.
  - left. js_call Hm Hacc Hkey. rewrite Hnet. js_step.
    destruct (negb (ok _)); js_step; exists 500%N; eexists; eexists;
      (split; [by right|split; reflexivity]).
Qed.

(** X5.  An upstream error is passed on.  When the upstream answers with
    a status outside 200-299 and a JSON body other than [null],
    [POST /translate] answers with that status; the [error] field is the
    upstream's [error.message] when that is truthy (of whatever type) and
    the text [API request failed] otherwise, so it is never empty.  The
    server also attaches the upstream body as [details]; the serverless
    function does not. *)
Theorem translate_upstream_error_passthrough (p : Process) (net : Net) (req : Request)
    (resp : Response) (data : value) :
  req_method req = "POST" →
  accepted_prompt (req_body req) = true →
  configured (GROQ_API_KEY p) = true →
  net GROQ_URL (chat_completion p (member (req_body req) "prompt")) = Resolved resp →
  ok resp = false → text resp = Json data → nullish data = false →
  let message := or_else (member (member data "error") "message")
                   (Str "API request failed") in
  truthy message = true
  ∧ snd (run net (Server.app_post_translate p req))
    = {| status_code := status resp;
         body := Some (Obj (<[ "error" := message ]> {[ "details" := data ]})) |}
  ∧ snd (run net (Api.handler p req))
    = {| status_code := status resp; body := Some (Obj {[ "error" := message ]}) |}.
Proof.
  intros Hm Hacc Hkey Hnet Hok Htext Hdata message.
  split; [by apply or_else_truthy|].
  pose proof (upstream_error_bodies p net req resp data Hm Hacc Hkey Hnet Hok Htext Hdata)
    as H.
  cbv zeta in H. rewrite optional_member in H. exact H.
Qed.

Lemma translate_upstream_error_passthrough_witness :
  snd (run (Sample.stub 429 (Obj {[ "error" := Obj {[ "message" := Str "Rate limit reached" ]} ]}))
         (Api.handler Sample.with_key Sample.say_hi))
  = {| status_code := 429; body := Some (Obj {[ "error" := Str "Rate limit reached" ]}) |}
  ∧ snd (run (Sample.stub 503 (Obj ∅)) (Api.handler Sample.with_key Sample.say_hi))
    = {| status_code := 503; body := Some (Obj {[ "error" := Str "API request failed" ]}) |}.
Proof.
  split.
  - exact (proj2 (proj2
      (translate_upstream_error_passthrough Sample.with_key
         (Sample.stub 429 (Obj {[ "error" := Obj {[ "message" := Str "Rate limit reached" ]} ]}))
         Sample.say_hi
         {| status := 429;
            text := Json (Obj {[ "error" := Obj {[ "message" := Str "Rate limit reached" ]} ]}) |}
         (Obj {[ "error" := Obj {[ "message" := Str "Rate limit reached" ]} ]})
         eq_refl eq_refl eq_refl eq_refl eq_refl eq_refl eq_refl))).
  - exact (proj2 (proj2
      (translate_upstream_error_passthrough Sample.with_key
         (Sample.stub 503 (Obj ∅)) Sample.say_hi
         {| status := 503; text := Json (Obj ∅) |} (Obj ∅)
         eq_refl eq_refl eq_refl eq_refl eq_refl eq_refl eq_refl))).
Defined.

(** X6.  An upstream error whose body is the JSON value [null] is not
    passed on: reading [errorData.error] throws, and the answer is 500
    with the message of the [TypeError] instead of the upstream status.
    Both deployments. *)
Theorem translate_upstream_error_null_body (p : Process) (net : Net) (req : Request)
    (code : N) :
  req_method req = "POST" →
  accepted_prompt (req_body req) = true →
  configured (GROQ_API_KEY p) = true →
  net GROQ_URL (chat_completion p (member (req_body req) "prompt"))
  = Resolved {| status := code; text := Json Null |} →
  ¬ (200 ≤ code ≤ 299)%N →
  snd (run net (Server.app_post_translate p req))
  = Spec.failure 500 ("Internal server error: " +:+ TypeError_message p (Read Null "error"))
  ∧ snd (run net (Api.handler p req))
    = Spec.failure 500 ("Internal server error: " +:+ TypeError_message p (Read Null "error")).
Proof.
  intros Hm Hacc Hkey Hnet Hcode.
  pose proof (translate_upstream_null p net req code Hm Hacc Hkey Hnet) as H.
  cbv zeta in H.
  destruct (ok {| status := code; text := Json Null |}) eqn:Hok; [|exact H].
  apply ok_true_range in Hok. contradiction.
Qed.

Lemma translate_upstream_error_null_body_witness :
  snd (run (Sample.stub 503 Null) (Server.app_post_translate Sample.with_key Sample.say_hi))
  = Spec.failure 500 "Internal server error: Cannot read properties of null (reading 'error')".
Proof.
  apply (translate_upstream_error_null_body Sample.with_key (Sample.stub 503 Null)
           Sample.say_hi 503%N); try reflexivity.
  lia.
Defined.

(** X7.  For an upstream success whose body is a JSON value other than
    [null], the answer is decided by [choices[0].message] alone: 200 with
    the body unchanged when it is truthy, the 500
    [Invalid response from AI service] failure when it is not ([choices]
    missing, empty, not indexable, or a first choice without a message).
    Both deployments. *)
Theorem translate_success_body_dichotomy (p : Process) (net : Net) (req : Request)
    (code : N) (data : value) :
  req_method req = "POST" →
  accepted_prompt (req_body req) = true →
  configured (GROQ_API_KEY p) = true →
  net GROQ_URL (chat_completion p (member (req_body req) "prompt"))
  = Resolved {| status := code; text := Json data |} →
  (200 ≤ code ≤ 299)%N →
  nullish data = false →
  let answer := if Spec.has_choice_message data
                then {| status_code := 200; body := Some data |}
                else Spec.MalformedUpstreamResponse in
  snd (run net (Server.app_post_translate p req)) = answer
  ∧ snd (run net (Api.handler p req)) = answer.
Proof.
  intros Hm Hacc Hkey Hnet Hcode Hdata answer. subst answer.
  destruct (Spec.has_choice_message data) eqn:Hshape.
  - by apply (translate_passes_on p net req code data).
  - by apply (malformed_body_rejected p net req code data).
Qed.

Lemma translate_success_body_dichotomy_witness :
  snd (run (Sample.stub 200 (Obj {[ "choices" := Arr [] ]}))
         (Server.app_post_translate Sample.with_key Sample.say_hi))
  = Spec.MalformedUpstreamResponse
  ∧ snd (run (Sample.stub 201 (Obj {[ "choices" := Str "x" ]}))
           (Api.handler Sample.with_key Sample.say_hi))
    = Spec.MalformedUpstreamResponse.
Proof.
  split.
  - exact (proj1
      (translate_success_body_dichotomy Sample.with_key
         (Sample.stub 200 (Obj {[ "choices" := Arr [] ]})) Sample.say_hi
         200%N (Obj {[ "choices" := Arr [] ]})
         eq_refl eq_refl eq_refl eq_refl ltac:(lia) eq_refl)).
  - exact (proj2
      (translate_success_body_dichotomy Sample.with_key
         (Sample.stub 201 (Obj {[ "choices" := Str "x" ]})) Sample.say_hi
         201%N (Obj {[ "choices" := Str "x" ]})
         eq_refl eq_refl eq_refl eq_refl ltac:(lia) eq_refl)).
Defined.

(** X8.  [POST /translate] never reports success on a failure: whenever
    its status code is in 200-299, the upstream answered the call with a
    success status and a body with a truthy [choices[0].message], and the
    answer is 200 with exactly that body.  Both deployments. *)
Theorem translate_success_status_means_passthrough (p : Process) (net : Net) (req : Request) :
  req_method req = "POST" →
  (200 ≤ status_code (snd (run net (Server.app_post_translate p req))) ≤ 299)%N
  ∨ (200 ≤ status_code (snd (run net (Api.handler p req))) ≤ 299)%N →
  ∃ code data,
    net GROQ_URL (chat_completion p (member (req_body req) "prompt"))
    = Resolved {| status := code; text := Json data |}
    ∧ (200 ≤ code ≤ 299)%N
    ∧ Spec.has_choice_message data = true
    ∧ snd (run net (Server.app_post_translate p req)) = {| status_code := 200; body := Some data |}
    ∧ snd (run net (Api.handler p req)) = {| status_code := 200; body := Some data |}.
Proof.
  intros Hm Hstatus.
  destruct (translate_outcome p net req Hm)
    as [(code & m1 & m2 & Hcode & Hs & Ha)
       |[(resp & data & e & Hnet & Hok & Htext & Hs & Ha)
        |(code & data & Hnet & Hcode & Hshape & Hs & Ha)]].
  - rewrite Hs, Ha in Hstatus. cbn [status_code Spec.failure] in Hstatus.
    destruct Hcode as [-> | ->]; lia.
  - rewrite Hs, Ha in Hstatus. cbn [status_code res_status_json] in Hstatus.
    destruct resp as [code t]. apply ok_false_range in Hok. cbn [status] in Hstatus.
    tauto.
  - exists code, data. done.
Qed.

Lemma translate_success_status_means_passthrough_witness :
  ∃ code data,
    Sample.upstream GROQ_URL
      (chat_completion Sample.with_key (member (req_body Sample.say_hi) "prompt"))
    = Resolved {| status := code; text := Json data |}
    ∧ (200 ≤ code ≤ 299)%N
    ∧ Spec.has_choice_message data = true
    ∧ snd (run Sample.upstream (Server.app_post_translate Sample.with_key Sample.say_hi))
      = {| status_code := 200; body := Some data |}
    ∧ snd (run Sample.upstream (Api.handler Sample.with_key Sample.say_hi))
      = {| status_code := 200; body := Some data |}.
Proof.
  apply (translate_success_status_means_passthrough Sample.with_key Sample.upstream
           Sample.say_hi).
  - reflexivity.
  - left. vm_compute. split; discriminate.
Defined.

(** X9.  Every answer of [POST /translate] that is not the upstream's
    success body passed on is a JSON object with an [error] field, in
    both deployments: no failure is answered with an empty or a
    non-object body. *)
Theorem translate_answers_error_or_passthrough (p : Process) (net : Net) (req : Request) :
  req_method req = "POST" →
  let s := snd (run net (Server.app_post_translate p req)) in
  let a := snd (run net (Api.handler p req)) in
  (Spec.has_error_field s ∧ Spec.has_error_field a)
  ∨ (∃ data, Spec.has_choice_message data = true
             ∧ s = {| status_code := 200; body := Some data |}
             ∧ a = {| status_code := 200; body := Some data |}).
Proof.
  intros Hm s a. subst s a.
  destruct (translate_outcome p net req Hm)
    as [(code & m1 & m2 & Hcode & -> & ->)
       |[(resp & data & e & Hnet & Hok & Htext & -> & ->)
        |(code & data & Hnet & Hcode & Hshape & -> & ->)]].
  - left. split; apply failure_has_error_field.
  - left. split.
    + eexists. exists e. split; [reflexivity|]. apply lookup_insert_eq.
    + eexists. exists e. split; [reflexivity|]. apply lookup_singleton_eq.
  - right. exists data. done.
Qed.

Lemma translate_answers_error_or_passthrough_witness :
  (Spec.has_error_field
     (snd (run (Sample.stub 503 (Obj ∅)) (Server.app_post_translate Sample.with_key Sample.say_hi)))
   ∧ Spec.has_error_field
       (snd (run (Sample.stub 503 (Obj ∅)) (Api.handler Sample.with_key Sample.say_hi))))
  ∨ (∃ data, Spec.has_choice_message data = true
             ∧ snd (run (Sample.stub 503 (Obj ∅))
                      (Server.app_post_translate Sample.with_key Sample.say_hi))
               = {| status_code := 200; body := Some data |}
             ∧ snd (run (Sample.stub 503 (Obj ∅)) (Api.handler Sample.with_key Sample.say_hi))
               = {| status_code := 200; body := Some data |}).
Proof.
  apply (translate_answers_error_or_passthrough Sample.with_key (Sample.stub 503 (Obj ∅))
           Sample.say_hi).
  reflexivity.
Defined.

(** X10.  A request without a body ([req.body] is [null] or
    [undefined]) is not answered 400: the destructuring throws inside the
    [try], and every route answers 500 with the message of the
    [TypeError], without any call. *)
Theorem request_without_body_is_internal_fault (p : Process) (net : Net) (req : Request) :
  nullish (req_body req) = true →
  run net (Server.app_post_translate p req)
  = ([], Spec.failure 500 ("Internal server error: "
                           +:+ TypeError_message p (Destructure (req_body req) "prompt")))
  ∧ (req_method req = "POST" →
     run net (Api.handler p req)
     = ([], Spec.failure 500 ("Internal server error: "
                              +:+ TypeError_message p (Destructure (req_body req) "prompt"))))
  ∧ run net (Server.app_post_ai_task p req)
    = ([], Spec.failure 500 ("Internal server error: "
                             +:+ TypeError_message p (Destructure (req_body req) "content"))).
Proof.
  intros Hb.
  destruct (translate_null_body p net req Hb) as [Hs Ha].
  split; [exact Hs|]. split; [exact Ha|].
  js_unfold. rewrite Hb. js_step. reflexivity.
Qed.

Lemma request_without_body_is_internal_fault_witness :
  run Sample.upstream (Server.app_post_ai_task Sample.with_key (Sample.post "summary" Undefined))
  = ([], Spec.failure 500
           "Internal server error: Cannot destructure property 'content' of 'req.body' as it is undefined.").
Proof.
  apply (request_without_body_is_internal_fault Sample.with_key Sample.upstream
           (Sample.post "summary" Undefined)).
  reflexivity.
Defined.

(** X11.  The serverless function looks at the method first.  [OPTIONS]
    is answered 200 with no body, every other method but [POST] is
    answered 405; in both cases the body of the request is not read, the
    credential is not needed and no call is made. *)
Theorem api_handler_method_gate (p : Process) (net : Net) (req : Request) :
  req_method req ≠ "POST" →
  run net (Api.handler p req)
  = ([], if String.eqb (req_method req) "OPTIONS"
         then {| status_code := 200; body := None |}
         else Spec.failure 405 "Method not allowed").
Proof.
  intros Hm. unfold Api.handler.
  destruct (String.eqb (req_method req) "OPTIONS"); [reflexivity|].
  apply String.eqb_neq in Hm. rewrite Hm. reflexivity.
Qed.

Lemma api_handler_method_gate_witness :
  run Sample.upstream
    (Api.handler Sample.without_key
       {| req_method := "GET"; req_protocol := "https"; req_host := None;
          req_task := ""; req_body := Null |})
  = ([], Spec.failure 405 "Method not allowed").
Proof.
  apply (api_handler_method_gate Sample.without_key Sample.upstream
           {| req_method := "GET"; req_protocol := "https"; req_host := None;
              req_task := ""; req_body := Null |}).
  discriminate.
Defined.

(** X12.  [/ai/:task] splices in whatever [content] converts to.  For
    each of the seven tasks and any truthy [content] (and, for
    [translate], any truthy [language]) that a template literal can
    convert, string or not, the route makes its one call with the
    template filled with the converted texts: a number by its print, an
    array by its elements joined with commas, an object without a
    [toString] property of its own as [[object Object]]. *)
Theorem ai_task_splices_any_value (t : Spec.Task) (p : Process) (net : Net) (req : Request)
    (c l : string) :
  req_task req = Spec.task_name t →
  truthy (member (req_body req) "content") = true →
  ToString (member (req_body req) "content") = Some c →
  (t = Spec.translate →
   truthy (member (req_body req) "language") = true
   ∧ ToString (member (req_body req) "language") = Some l) →
  fst (run net (Server.app_post_ai_task p req))
  = [(Server.translate_url req,
      Server.translate_call (Spec.substitute (Spec.template t) c l))].
Proof.
  intros Ht Hc Hconv Hl. apply ai_task_calls; [exact Hc|].
  rewrite Ht. by apply switch_task_converted.
Qed.

Lemma ai_task_splices_any_value_witness :
  fst (run Sample.upstream
         (Server.app_post_ai_task Sample.with_key
            (Sample.post "define"
               (Obj {[ "content" := Arr [Num 1%Q; Null; Obj ∅; Arr [Bool true; Str "x"]] ]}))))
  = [("http://localhost:3000/translate",
      Server.translate_call
        ("Provide a brief, clear definition (1-2 sentences maximum) for the term: "
         +:+ dquote +:+ "1,,[object Object],true,x" +:+ dquote
         +:+ ". Focus on the most relevant meaning in context."))].
Proof.
  rewrite (ai_task_splices_any_value Spec.define Sample.with_key Sample.upstream
             (Sample.post "define"
                (Obj {[ "content" := Arr [Num 1%Q; Null; Obj ∅; Arr [Bool true; Str "x"]] ]}))
             "1,,[object Object],true,x" ""
             ltac:(reflexivity) ltac:(reflexivity) ltac:(vm_compute; reflexivity)
             ltac:(discriminate)).
  reflexivity.
Defined.

(** X21.  A [content] (or, for [translate], a [language]) that a
    template literal cannot convert makes [/ai/:task] answer 500 with the
    message of the [TypeError] its conversion throws, without any call:
    an object with a property of its own named [toString], or an array
    that holds one. *)
Theorem ai_task_unconvertible_value (t : Spec.Task) (p : Process) (net : Net) (req : Request) :
  req_task req = Spec.task_name t →
  truthy (member (req_body req) "content") = true →
  (t = Spec.translate → truthy (member (req_body req) "language") = true) →
  ToString (member (req_body req) "content") = None
  ∨ (t = Spec.translate ∧ ToString (member (req_body req) "language") = None) →
  ∃ v, (v = member (req_body req) "content"
        ∨ (t = Spec.translate ∧ v = member (req_body req) "language"))
       ∧ ToString v = None
       ∧ run net (Server.app_post_ai_task p req)
         = ([], Spec.failure 500 ("Internal server error: "
                                  +:+ TypeError_message p (Convert v))).
Proof.
  intros Ht Hc Hl Hnone.
  destruct (switch_task_not_converted t _ _ Hl Hnone) as (v & Hwhich & Hv & Hs).
  exists v. split; [exact Hwhich|]. split; [exact Hv|].
  apply ai_task_raised; [exact Hc|]. by rewrite Ht.
Qed.

Lemma ai_task_unconvertible_value_witness :
  ∃ v, (v = member (Obj {[ "content" := Obj {[ "toString" := Str "x" ]} ]}) "content"
        ∨ (Spec.summary = Spec.translate
           ∧ v = member (Obj {[ "content" := Obj {[ "toString" := Str "x" ]} ]}) "language"))
       ∧ ToString v = None
       ∧ run Sample.upstream
           (Server.app_post_ai_task Sample.with_key
              (Sample.post "summary" (Obj {[ "content" := Obj {[ "toString" := Str "x" ]} ]})))
         = ([], Spec.failure 500 ("Internal server error: "
                                  +:+ TypeError_message Sample.with_key (Convert v))).
Proof.
  apply (ai_task_unconvertible_value Spec.summary Sample.with_key Sample.upstream
           (Sample.post "summary" (Obj {[ "content" := Obj {[ "toString" := Str "x" ]} ]}))).
  - reflexivity.
  - reflexivity.
  - discriminate.
  - left. reflexivity.
Defined.

Example own_toString_throws :
  run Sample.upstream
    (Server.app_post_ai_task Sample.with_key
       (Sample.post "summary" (Obj {[ "content" := Obj {[ "toString" := Str "x" ]} ]})))
  = ([], Spec.failure 500 "Internal server error: Cannot convert object to primitive value").
Proof. vm_compute. reflexivity. Qed.

Lemma switch_task_language_unused (task : string) (content l1 l2 : value) :
  task ≠ "translate" →
  Server.switch_task task content l1 = Server.switch_task task content l2.
Proof.
  intros Ht. apply String.eqb_neq in Ht. unfold Server.switch_task. by rewrite Ht.
Qed.

(** X13.  [language] matters to the [translate] task only.  Two requests
    for the same task other than [translate], with the same protocol,
    host and [content], get the same calls and the same answer, whatever
    [language] and the other fields of their bodies are. *)
Theorem ai_task_ignores_language (p : Process) (net : Net) (req req' : Request) :
  req_task req ≠ "translate" →
  req_task req' = req_task req →
  req_protocol req' = req_protocol req →
  req_host req' = req_host req →
  nullish (req_body req) = false →
  nullish (req_body req') = false →
  member (req_body req') "content" = member (req_body req) "content" →
  run net (Server.app_post_ai_task p req') = run net (Server.app_post_ai_task p req).
Proof.
  intros Ht Htask Hproto Hhost Hb Hb' Hc.
  unfold Server.app_post_ai_task, destructure, Server.translate_url.
  rewrite Hb, Hb', Hc, Htask, Hproto, Hhost. js_step.
  destruct (negb (truthy (member (req_body req) "content"))); [reflexivity|].
  by rewrite (switch_task_language_unused _ _ (member (req_body req') "language")
                (member (req_body req) "language") Ht).
Qed.

Lemma ai_task_ignores_language_witness :
  run Sample.upstream
    (Server.app_post_ai_task Sample.with_key
       (Sample.post "summary"
          (Obj (<[ "content" := Str "hi" ]> {[ "language" := Str "French" ]}))))
  = run Sample.upstream (Server.app_post_ai_task Sample.with_key Sample.summarise_hi).
Proof.
  apply (ai_task_ignores_language Sample.with_key Sample.upstream Sample.summarise_hi
           (Sample.post "summary"
              (Obj (<[ "content" := Str "hi" ]> {[ "language" := Str "French" ]}))));
    try reflexivity.
  discriminate.
Defined.

(** X14.  Task names are matched exactly.  For a request with a truthy
    [content], [/ai/:task] answers the [InvalidTask] failure, with no
    call, exactly when the task is not literally one of the seven names
    (so another spelling or case of a name is refused). *)
Theorem ai_task_invalid_task_exactly_when_unknown (p : Process) (net : Net) (req : Request) :
  truthy (member (req_body req) "content") = true →
  run net (Server.app_post_ai_task p req) = ([], Spec.InvalidTask)
  ↔ Spec.known_task (req_task req) = false.
Proof.
  intros Hc. split.
  - intros Hrun. destruct (Spec.known_task (req_task req)) eqn:Hk; [|reflexivity].
    destruct (switch_task_known (req_task req) (member (req_body req) "content")
                (member (req_body req) "language") Hk) as [[prompt Hs]|[Hs|[v Hs]]].
    + pose proof (ai_task_calls p net req prompt Hc Hs) as Hcalls.
      rewrite Hrun in Hcalls. discriminate Hcalls.
    + rewrite (ai_task_refused p net req _ Hc Hs) in Hrun.
      apply (f_equal snd) in Hrun. cbn [snd] in Hrun.
      apply failure_message_inj in Hrun. discriminate Hrun.
    + rewrite (ai_task_raised p net req _ Hc Hs) in Hrun.
      apply (f_equal (λ o, status_code (snd o))) in Hrun. discriminate Hrun.
  - intros Hk. apply ai_task_refused; [exact Hc|]. by apply switch_task_unknown.
Qed.

Lemma ai_task_invalid_task_exactly_when_unknown_witness :
  run Sample.upstream
    (Server.app_post_ai_task Sample.with_key
       (Sample.post "Summary" (Obj {[ "content" := Str "hi" ]})))
  = ([], Spec.InvalidTask).
Proof.
  apply (ai_task_invalid_task_exactly_when_unknown Sample.with_key Sample.upstream
           (Sample.post "Summary" (Obj {[ "content" := Str "hi" ]}))).
  - reflexivity.
  - reflexivity.
Defined.

(** X15.  What [/ai/:task] answers once the prompt is built depends on
    the body of the inner answer only.  If the call of [/translate]
    fails, or its answer is not JSON, the route answers 500 with the
    message; otherwise it answers 200 with the JSON body it received,
    whatever status that answer had. *)
Theorem ai_task_answer (p : Process) (net : Net) (req : Request) (prompt : string) :
  truthy (member (req_body req) "content") = true →
  Server.switch_task (req_task req) (member (req_body req) "content")
    (member (req_body req) "language") = Server.Prompt prompt →
  snd (run net (Server.app_post_ai_task p req))
  = match net (Server.translate_url req) (Server.translate_call prompt) with
    | Rejected message => Spec.failure 500 ("Internal server error: " +:+ message)
    | Resolved response =>
        match text response with
        | Json data => {| status_code := 200; body := Some data |}
        | Unparsable message => Spec.failure 500 ("Internal server error: " +:+ message)
        end
    end.
Proof.
  intros Hc Hs. js_unfold.
  rewrite (member_truthy_not_nullish _ _ Hc). js_step.
  rewrite Hc. js_step. rewrite Hs. js_step.
  destruct (net _ _) as [e|[code [v|e]]]; js_step; reflexivity.
Qed.

Lemma ai_task_answer_witness :
  snd (run (Sample.stub 404 (Obj {[ "error" := Str "Endpoint not found" ]}))
         (Server.app_post_ai_task Sample.with_key Sample.summarise_hi))
  = {| status_code := 200; body := Some (Obj {[ "error" := Str "Endpoint not found" ]}) |}.
Proof.
  apply (ai_task_answer Sample.with_key
           (Sample.stub 404 (Obj {[ "error" := Str "Endpoint not found" ]}))
           Sample.summarise_hi
           (Spec.substitute (Spec.template Spec.summary) "hi" "")).
  - reflexivity.
  - reflexivity.
Defined.

(** X16.  [/ai/:task] makes at most one call, to the address it builds
    from the protocol and the [Host] header of the request followed by
    [/translate], and only when the content is truthy and the [switch]
    has built a prompt; a request that is refused (no body, falsy
    content, unknown task, [translate] without a language) or whose
    template literal throws makes no call. *)
Theorem ai_task_calls_at_most_once (p : Process) (net : Net) (req : Request) :
  fst (run net (Server.app_post_ai_task p req))
  = if truthy (member (req_body req) "content")
    then match Server.switch_task (req_task req) (member (req_body req) "content")
                 (member (req_body req) "language") with
         | Server.Prompt prompt => [(Server.translate_url req, Server.translate_call prompt)]
         | Server.Refused _ => []
         | Server.Raised _ => []
         end
    else [].
Proof.
  destruct (truthy (member (req_body req) "content")) eqn:Hc.
  - destruct (Server.switch_task _ _ _) as [prompt|r|a] eqn:Hs.
    + by apply ai_task_calls.
    + by rewrite (ai_task_refused p net req r Hc Hs).
    + by rewrite (ai_task_raised p net req a Hc Hs).
  - destruct (nullish (req_body req)) eqn:Hb.
    + js_unfold. rewrite Hb. js_step. reflexivity.
    + by rewrite ai_task_no_content.
Qed.

(** X17.  The content check of [/ai/:task] is a truthiness test.  For a
    request with a body, the route answers the 400 [Content is required]
    failure exactly when [content] is falsy: missing, [null], [false],
    [0] or the empty string. *)
Theorem ai_task_content_required_exactly_when_falsy (p : Process) (net : Net) (req : Request) :
  nullish (req_body req) = false →
  run net (Server.app_post_ai_task p req) = ([], Spec.failure 400 "Content is required")
  ↔ truthy (member (req_body req) "content") = false.
Proof.
  intros Hb. split; [|by apply ai_task_no_content].
  intros Hrun. destruct (truthy (member (req_body req) "content")) eqn:Hc; [|reflexivity].
  destruct (Spec.known_task (req_task req)) eqn:Hk.
  - destruct (switch_task_known (req_task req) (member (req_body req) "content")
                (member (req_body req) "language") Hk) as [[prompt Hs]|[Hs|[v Hs]]].
    + pose proof (ai_task_calls p net req prompt Hc Hs) as Hcalls.
      rewrite Hrun in Hcalls. discriminate Hcalls.
    + rewrite (ai_task_refused p net req _ Hc Hs) in Hrun.
      apply (f_equal snd) in Hrun. cbn [snd] in Hrun.
      apply failure_message_inj in Hrun. discriminate Hrun.
    + rewrite (ai_task_raised p net req _ Hc Hs) in Hrun.
      apply (f_equal (λ o, status_code (snd o))) in Hrun. discriminate Hrun.
  - rewrite (ai_task_refused p net req Spec.InvalidTask Hc) in Hrun
      by (by apply switch_task_unknown).
    apply (f_equal snd) in Hrun. cbn [snd] in Hrun.
    apply failure_message_inj in Hrun. discriminate Hrun.
Qed.

Lemma ai_task_content_required_exactly_when_falsy_witness :
  run Sample.upstream
    (Server.app_post_ai_task Sample.with_key (Sample.post "summary" (Obj {[ "content" := Num 0%Q ]})))
  = ([], Spec.failure 400 "Content is required").
Proof.
  apply (ai_task_content_required_exactly_when_falsy Sample.with_key Sample.upstream
           (Sample.post "summary" (Obj {[ "content" := Num 0%Q ]}))).
  - reflexivity.
  - reflexivity.
Defined.

(** X18.  End to end.  With the server reachable at its own address, a
    configured credential and an upstream that answers the templated
    prompt with a success status and a body with a truthy
    [choices[0].message], [/ai/:task] answers 200 with exactly the
    upstream body, for each of the seven tasks and every non-empty
    content (and language, for [translate]). *)
Theorem ai_task_end_to_end (t : Spec.Task) (content language : string)
    (p : Process) (net : Net) (req : Request) (code : N) (data : value) :
  req_task req = Spec.task_name t →
  member (req_body req) "content" = Str content →
  content ≠ "" →
  (t = Spec.translate → member (req_body req) "language" = Str language ∧ language ≠ "") →
  configured (GROQ_API_KEY p) = true →
  net GROQ_URL
    (chat_completion p (Str (Spec.substitute (Spec.template t) content language)))
  = Resolved {| status := code; text := Json data |} →
  (200 ≤ code ≤ 299)%N →
  Spec.has_choice_message data = true →
  snd (run (loopback p net req) (Server.app_post_ai_task p req))
  = {| status_code := 200; body := Some data |}.
Proof.
  intros Ht Hc Hne Hl Hkey Hnet Hcode Hshape.
  set (prompt := Spec.substitute (Spec.template t) content language) in *.
  assert (Htruthy : truthy (member (req_body req) "content") = true).
  { rewrite Hc. cbn [truthy]. by rewrite (string_nonempty _ Hne). }
  assert (Hs : Server.switch_task (req_task req) (member (req_body req) "content")
                 (member (req_body req) "language") = Server.Prompt prompt).
  { rewrite Ht, Hc. apply switch_task_template. intros E.
    destruct (Hl E) as [-> Hlne]. by split. }
  destruct (ai_task_delegates p net req prompt Htruthy Hs) as [Hstatus Hbody].
  assert (Hdirect :
            snd (run net (Server.app_post_translate p
                            (translate_request req (Obj {[ "prompt" := Str prompt ]}))))
            = {| status_code := 200; body := Some data |}).
  { apply (translate_passes_on p net _ code data); try done.
    apply (accepted_prompt_str _ prompt); [reflexivity|].
    by apply switch_task_prompt_nonempty in Hs. }
  rewrite Hdirect in Hbody. cbn [body] in Hbody.
  destruct (snd (run (loopback p net req) (Server.app_post_ai_task p req))) as [c b].
  cbn [status_code body] in Hstatus, Hbody. by subst.
Qed.

Lemma ai_task_end_to_end_witness :
  snd (run (loopback Sample.with_key Sample.upstream Sample.translate_special)
         (Server.app_post_ai_task Sample.with_key Sample.translate_special))
  = {| status_code := 200; body := Some Sample.completion_X |}.
Proof.
  apply (ai_task_end_to_end Spec.translate Sample.special "French" Sample.with_key
           Sample.upstream Sample.translate_special 200%N Sample.completion_X);
    try reflexivity; try discriminate.
  - intros _. split; [reflexivity|discriminate].
  - lia.
Defined.

Lemma health_flag (p : Process) (now : string) :
  member (health_report p now) "groqConfigured" = Bool (configured (GROQ_API_KEY p)).
Proof.
  unfold health_report, member.
  rewrite lookup_insert_ne by done. rewrite lookup_insert_ne by done.
  by rewrite lookup_singleton_eq.
Qed.

(** X19.  The health report tells whether [/translate] can work.  Both
    health endpoints answer a [GET] with 200 and the same report, and
    its [groqConfigured] flag is [true] exactly when [GROQ_API_KEY] is
    set to a non-empty text: then [POST /translate] sends an accepted
    prompt upstream; when the flag is [false] it answers the
    missing-credential failure without a call. *)
Theorem health_reports_translate_readiness (p : Process) (now : string) (net : Net)
    (hreq req : Request) :
  req_method hreq = "GET" →
  accepted_prompt (req_body req) = true →
  let report := Server.app_get_health p now hreq in
  let flag := configured (GROQ_API_KEY p) in
  ApiHealth.handler p now hreq = report
  ∧ status_code report = 200%N
  ∧ (∃ v, body report = Some v ∧ member v "groqConfigured" = Bool flag
          ∧ member v "status" = Str "ok" ∧ member v "timestamp" = Str now)
  ∧ (flag = true ↔ ∃ key, GROQ_API_KEY p = Some key ∧ key ≠ "")
  ∧ (flag = true →
     fst (run net (Server.app_post_translate p req))
     = [(GROQ_URL, chat_completion p (member (req_body req) "prompt"))])
  ∧ (flag = false →
     run net (Server.app_post_translate p req)
     = ([], Spec.failure 500
              "Server configuration error: GROQ_API_KEY not found in environment variables")).
Proof.
  intros Hm Hacc report flag. subst report flag.
  split; [unfold ApiHealth.handler; by rewrite Hm|].
  split; [reflexivity|].
  split.
  { exists (health_report p now). split; [reflexivity|]. split; [apply health_flag|].
    unfold health_report, member. split.
    - by rewrite lookup_insert_eq.
    - rewrite lookup_insert_ne by done. by rewrite lookup_insert_eq. }
  split.
  { unfold configured. destruct (GROQ_API_KEY p) as [key|]; split.
    - intros H. exists key. split; [reflexivity|]. intros ->. discriminate H.
    - intros (k & [= <-] & Hne). by rewrite (string_nonempty _ Hne).
    - discriminate.
    - intros (k & Hk & _). discriminate Hk. }
  split.
  - intros Hkey.
    pose proof (translate_calls_when_ready p net
                  (translate_request req (req_body req)) eq_refl Hacc Hkey) as [H _].
    exact H.
  - intros Hkey. by destruct (credential_missing p net req Hacc Hkey) as [H _].
Qed.

Lemma health_reports_translate_readiness_witness :
  ApiHealth.handler Sample.without_key "2024-01-01T00:00:00.000Z"
    {| req_method := "GET"; req_protocol := "https"; req_host := None;
       req_task := ""; req_body := Undefined |}
  = Server.app_get_health Sample.without_key "2024-01-01T00:00:00.000Z"
      {| req_method := "GET"; req_protocol := "https"; req_host := None;
         req_task := ""; req_body := Undefined |}.
Proof.
  apply (health_reports_translate_readiness Sample.without_key "2024-01-01T00:00:00.000Z"
           Sample.upstream
           {| req_method := "GET"; req_protocol := "https"; req_host := None;
              req_task := ""; req_body := Undefined |}
           Sample.say_hi).
  - reflexivity.
  - reflexivity.
Defined.

(** X20.  Every prompt the [switch] builds passes the validation of
    [/translate]: it is a non-empty string, so the inner request
    [{prompt}] of the task route is never answered with the 400
    invalid-prompt failure; it gets to the credential check, which either
    fails or lets the one upstream call through. *)
Theorem ai_task_prompt_passes_validation (p : Process) (net : Net) (req : Request)
    (prompt : string) :
  Server.switch_task (req_task req) (member (req_body req) "content")
    (member (req_body req) "language") = Server.Prompt prompt →
  let inner := translate_request req (payload (Server.translate_call prompt)) in
  accepted_prompt (req_body inner) = true
  ∧ run net (Server.app_post_translate p inner)
    ≠ ([], Spec.failure 400 "Invalid request: prompt is required and must be a string")
  ∧ (fst (run net (Server.app_post_translate p inner))
     = [(GROQ_URL, chat_completion p (Str prompt))]
     ∨ run net (Server.app_post_translate p inner)
       = ([], Spec.failure 500
                "Server configuration error: GROQ_API_KEY not found in environment variables")).
Proof.
  intros Hs inner.
  assert (Hacc : accepted_prompt (req_body inner) = true).
  { apply (accepted_prompt_str _ prompt); [reflexivity|].
    by apply switch_task_prompt_nonempty in Hs. }
  split; [exact Hacc|].
  destruct (configured (GROQ_API_KEY p)) eqn:Hkey.
  - destruct (translate_calls_when_ready p net inner eq_refl Hacc Hkey) as [Hcalls _].
    split; [|by left]. intros E. rewrite E in Hcalls. discriminate Hcalls.
  - destruct (credential_missing p net inner Hacc Hkey) as [Hrun _].
    split; [|by right]. rewrite Hrun. intros E.
    apply (f_equal (λ o, status_code (snd o))) in E. discriminate E.
Qed.

Lemma ai_task_prompt_passes_validation_witness :
  accepted_prompt
    (req_body (translate_request Sample.summarise_5
                 (payload (Server.translate_call
                             ("Please provide a concise 2-3 sentence summary of the following text:"
                              +:+ nl +:+ nl +:+ pretty 5%Z)))))
  = true.
Proof.
  apply (ai_task_prompt_passes_validation Sample.with_key Sample.upstream Sample.summarise_5
           ("Please provide a concise 2-3 sentence summary of the following text:"
            +:+ nl +:+ nl +:+ pretty 5%Z)).
  reflexivity.
Defined.
